(** * Berekenmijnbatterij: the quarter-hour home-battery simulation of app.py

    A shallow embedding of the simulation that app.py runs once a CSV file
    has been uploaded, and the properties of it that the specification
    states.

    Numbers.  Python floats are modelled as exact rationals ([Q]); the
    literals of the source ([0.25], [900], ...) are kept as they are
    written, except that [1e-9] and [1e-6] are spelled out as
    [0.000000001] and [0.000001].  Equality of quantities is [Qeq]
    ([==]).  The values of [st.sidebar.slider] widgets called with integer
    bounds are integers ([Z]); those of [st.sidebar.number_input] are
    rationals.

    What is proved of the rational model is what the script computes when
    no operation rounds.  The module [Vlottend] holds the same loop on
    binary64 floats, the numbers of the script itself; it is evaluated
    where rounding decides a statement. *)

From Stdlib Require Import QArith Qminmax Qabs Lqa ZArith List Sorted String Ascii Bool Lia.
From Stdlib Require PrimFloat.
Import ListNotations.
Open Scope Q_scope.

(** ** Python's [min] and [max] on numbers

    [min(a, b, c)] keeps the first smallest argument and [max(a, b)] the
    first largest; [Qmin] and [Qmax] pick the same argument. *)

Definition min3 (a b c : Q) : Q := Qmin (Qmin a b) c.

(** ** Sidebar settings (app.py, lines 22-31) *)

Record Instellingen := {
  batterij_capaciteit : Q;
  max_vermogen_kW : Q;
  eff_laden_slider : Z;
  eff_ontladen_slider : Z;
  soc_min_pct : Z;
  soc_max_pct : Z;
  reactietijd_laden : Z;
  reactietijd_ontladen : Z;
  prijs_import : Q;
  prijs_export : Q
}.

(** [eff_laden = slider(...) / 100] and likewise for discharging. *)
Definition eff_laden (inst : Instellingen) : Q :=
  inject_Z (eff_laden_slider inst) / 100.

Definition eff_ontladen (inst : Instellingen) : Q :=
  inject_Z (eff_ontladen_slider inst) / 100.

(** The ranges that the widgets enforce ([min_value]/[max_value] of the
    number inputs, the bounds of the sliders).  The prices are free. *)
Definition binnen_bereik (inst : Instellingen) : Prop :=
  1 <= batterij_capaciteit inst /\ batterij_capaciteit inst <= 100 /\
  0.1 <= max_vermogen_kW inst /\ max_vermogen_kW inst <= 20 /\
  (70 <= eff_laden_slider inst <= 100)%Z /\
  (70 <= eff_ontladen_slider inst <= 100)%Z /\
  (0 <= soc_min_pct inst <= 50)%Z /\
  (50 <= soc_max_pct inst <= 100)%Z /\
  (0 <= reactietijd_laden inst <= 60)%Z /\
  (0 <= reactietijd_ontladen inst <= 60)%Z.

(** ** Derived simulation settings (app.py, lines 54-60) *)

Definition kwartier_uur : Q := 0.25.

Definition max_energie_per_kwartier (inst : Instellingen) : Q :=
  max_vermogen_kW inst * kwartier_uur.

Definition soc_min (inst : Instellingen) : Q :=
  inject_Z (soc_min_pct inst) / 100 * batterij_capaciteit inst.

Definition soc_max (inst : Instellingen) : Q :=
  inject_Z (soc_max_pct inst) / 100 * batterij_capaciteit inst.

Definition vertraging_laden (inst : Instellingen) : Q :=
  Qmax 0 (Qmin 1 (1 - inject_Z (reactietijd_laden inst) / 900)).

Definition vertraging_ontladen (inst : Instellingen) : Q :=
  Qmax 0 (Qmin 1 (1 - inject_Z (reactietijd_ontladen inst) / 900)).

(** ** Timestamps and quarter-hour buckets

    A pandas timestamp, down to the nanosecond that it resolves. *)

Record Tijd := {
  jaar : Z;
  maand : Z;
  dag : Z;
  uur : Z;
  minuut : Z;
  seconde : Z;
  nanoseconde : Z
}.

(** A row of [df_kwartier]: the summed [afname] (import) and [injectie]
    (export) of one timestamp. *)
Record Kwartier := {
  datetime : Tijd;
  afname : Q;
  injectie : Q
}.

Definition niet_negatief (kw : Kwartier) : Prop :=
  0 <= afname kw /\ 0 <= injectie kw.

(** ** One loop iteration (app.py, lines 67-99)

    The locals of the loop body, each as a function of the settings, the
    battery level it reads and the bucket. *)

(* Laden *)
Definition potentieel_opladen (inst : Instellingen) (kw : Kwartier) : Q :=
  injectie kw * eff_laden inst * vertraging_laden inst.

Definition effectief_opladen (inst : Instellingen) (niveau : Q) (kw : Kwartier) : Q :=
  min3 (potentieel_opladen inst kw)
       (max_energie_per_kwartier inst)
       (soc_max inst - niveau).

Definition naar_net (inst : Instellingen) (niveau : Q) (kw : Kwartier) : Q :=
  Qmax (injectie kw
        - effectief_opladen inst niveau kw
          / (eff_laden inst * vertraging_laden inst + 0.000000001))
       0.

(* Ontladen: [niveau] is the level the discharging phase reads. *)
Definition potentieel_ontladen (inst : Instellingen) (niveau : Q) (kw : Kwartier) : Q :=
  min3 (afname kw / (eff_ontladen inst * vertraging_ontladen inst + 0.000000001))
       (max_energie_per_kwartier inst)
       (niveau - soc_min inst).

Definition effectief_ontladen (inst : Instellingen) (niveau : Q) (kw : Kwartier) : Q :=
  potentieel_ontladen inst niveau kw * eff_ontladen inst * vertraging_ontladen inst.

Definition van_net (inst : Instellingen) (niveau : Q) (kw : Kwartier) : Q :=
  Qmax (afname kw - effectief_ontladen inst niveau kw) 0.

(** A row of [resultaten]; the fields are the keys of the appended dict. *)
Record Resultaat := {
  tijd : Tijd;
  afname_kWh : Q;
  injectie_kWh : Q;
  opladen_kWh : Q;
  ontladen_kWh : Q;
  van_net_kWh : Q;
  naar_net_kWh : Q;
  batterij_niveau_kWh : Q
}.

(** The variables that the loop carries from one bucket to the next. *)
Record Toestand := {
  batterij_niveau : Q;
  resultaten : list Resultaat;
  energie_op_batterij : Q;
  energie_van_net : Q;
  energie_naar_net : Q;
  energie_zonder_batterij_van_net : Q;
  energie_zonder_batterij_naar_net : Q
}.

Definition begin (inst : Instellingen) : Toestand := {|
  batterij_niveau := batterij_capaciteit inst / 2;
  resultaten := [];
  energie_op_batterij := 0;
  energie_van_net := 0;
  energie_naar_net := 0;
  energie_zonder_batterij_van_net := 0;
  energie_zonder_batterij_naar_net := 0
|}.

Definition stap (inst : Instellingen) (st : Toestand) (kw : Kwartier) : Toestand :=
  let niveau0 := batterij_niveau st in
  (* Laden *)
  let opladen := effectief_opladen inst niveau0 kw in
  let niveau1 := niveau0 + opladen in
  let naar := naar_net inst niveau0 kw in
  (* Ontladen *)
  let pot_ontladen := potentieel_ontladen inst niveau1 kw in
  let ontladen := effectief_ontladen inst niveau1 kw in
  let niveau2 := niveau1 - pot_ontladen in
  let van := van_net inst niveau1 kw in
  {| batterij_niveau := niveau2;
     resultaten := resultaten st ++
       [ {| tijd := datetime kw;
            afname_kWh := afname kw;
            injectie_kWh := injectie kw;
            opladen_kWh := opladen;
            ontladen_kWh := ontladen;
            van_net_kWh := van;
            naar_net_kWh := naar;
            batterij_niveau_kWh := niveau2 |} ];
     energie_op_batterij := energie_op_batterij st + opladen;
     energie_van_net := energie_van_net st + van;
     energie_naar_net := energie_naar_net st + naar;
     energie_zonder_batterij_van_net :=
       energie_zonder_batterij_van_net st + afname kw;
     energie_zonder_batterij_naar_net :=
       energie_zonder_batterij_naar_net st + injectie kw |}.

(** The whole loop over the rows of [df_kwartier]. *)
Definition simuleer (inst : Instellingen) (kwartieren : list Kwartier) : Toestand :=
  fold_left (stap inst) kwartieren (begin inst).

(** ** Full and empty time (app.py, lines 104-111) *)

Definition is_vol (inst : Instellingen) (r : Resultaat) : bool :=
  Qle_bool (soc_max inst - 0.000001) (batterij_niveau_kWh r).

Definition is_leeg (inst : Instellingen) (r : Resultaat) : bool :=
  Qle_bool (batterij_niveau_kWh r) (soc_min inst + 0.000001).

(** [res[kolom].sum()] of a boolean column: the number of [True] rows. *)
Definition aantal (p : Resultaat -> bool) (res : list Resultaat) : Q :=
  inject_Z (Z.of_nat (List.length (filter p res))).

Definition tijd_vol_uren (inst : Instellingen) (res : list Resultaat) : Q :=
  aantal (is_vol inst) res * kwartier_uur.

Definition tijd_leeg_uren (inst : Instellingen) (res : list Resultaat) : Q :=
  aantal (is_leeg inst) res * kwartier_uur.

Definition tijd_totaal_uren (res : list Resultaat) : Q :=
  inject_Z (Z.of_nat (List.length res)) * kwartier_uur.

(** Python's [x / y]: no number comes out of a division by zero. *)
Definition deel (x y : Q) : option Q :=
  if Qeq_bool y 0 then None else Some (x / y).

Definition pct_vol (inst : Instellingen) (res : list Resultaat) : option Q :=
  deel (100 * tijd_vol_uren inst res) (tijd_totaal_uren res).

Definition pct_leeg (inst : Instellingen) (res : list Resultaat) : option Q :=
  deel (100 * tijd_leeg_uren inst res) (tijd_totaal_uren res).

(** ** Savings (app.py, lines 114-115) *)

Definition besparing (inst : Instellingen) (st : Toestand) : Q :=
  (energie_zonder_batterij_van_net st - energie_van_net st) * prijs_import inst
  + (energie_naar_net st - energie_zonder_batterij_naar_net st) * prijs_export inst.

(** ** [groupby(...).sum()]

    The groups are kept in increasing key order; a row is added to the
    group of its key, after the rows already there. *)

Section Groeperen.
Context {K V : Type}.
Variable vergelijk : K -> K -> comparison.
Variable plus : V -> V -> V.

Fixpoint tel_bij (k : K) (v : V) (g : list (K * V)) : list (K * V) :=
  match g with
  | [] => [(k, v)]
  | (k', v') :: g' =>
      match vergelijk k k' with
      | Eq => (k', plus v' v) :: g'
      | Lt => (k, v) :: g
      | Gt => (k', v') :: tel_bij k v g'
      end
  end.

Definition groupby_sum (rijen : list (K * V)) : list (K * V) :=
  fold_left (fun g kv => tel_bij (fst kv) (snd kv) g) rijen [].
End Groeperen.

(** ** Monthly savings (app.py, lines 141-148)

    A pandas Series indexed by month: the labels with their values, [None]
    for NaN.  Arithmetic on two Series aligns them on the union of their
    labels and gives NaN where a label is missing on one side. *)

Definition Reeks := list (Z * option Q).

Definition reeks_van (g : list (Z * Q)) : Reeks :=
  map (fun kv => (fst kv, Some (snd kv))) g.

Definition reeks_zoek (k : Z) (s : Reeks) : option Q :=
  match find (fun kv => Z.eqb (fst kv) k) s with
  | Some kv => snd kv
  | None => None
  end.

Fixpoint voeg_label (k : Z) (ks : list Z) : list Z :=
  match ks with
  | [] => [k]
  | k' :: ks' =>
      match Z.compare k k' with
      | Eq => ks
      | Lt => k :: ks
      | Gt => k' :: voeg_label k ks'
      end
  end.

Definition index_unie (a b : Reeks) : list Z :=
  fold_left (fun ks k => voeg_label k ks) (map fst b) (map fst a).

Definition reeks_op (f : Q -> Q -> Q) (a b : Reeks) : Reeks :=
  map (fun k =>
         (k, match reeks_zoek k a, reeks_zoek k b with
             | Some x, Some y => Some (f x y)
             | _, _ => None
             end))
      (index_unie a b).

Definition reeks_maal (a : Reeks) (c : Q) : Reeks :=
  map (fun kv => (fst kv, option_map (fun x => x * c) (snd kv))) a.

(** [dt.to_period("M")]: the month of a timestamp, as the number of months
    since January 1970. *)
Definition to_period_M (t : Tijd) : Z :=
  ((jaar t - 1970) * 12 + (maand t - 1))%Z.

Section PerMaand.
(** The month of a timestamp; [to_period_M] in the app. *)
Variable periode : Tijd -> Z.

Definition maand_energie_van_net (res : list Resultaat) : Reeks :=
  reeks_van (groupby_sum Z.compare Qplus
               (map (fun r => (periode (tijd r), van_net_kWh r)) res)).

Definition maand_energie_naar_net (res : list Resultaat) : Reeks :=
  reeks_van (groupby_sum Z.compare Qplus
               (map (fun r => (periode (tijd r), naar_net_kWh r)) res)).

Definition maand_zonder_van_net (kwartieren : list Kwartier) : Reeks :=
  reeks_van (groupby_sum Z.compare Qplus
               (map (fun kw => (periode (datetime kw), afname kw)) kwartieren)).

Definition maand_zonder_naar_net (kwartieren : list Kwartier) : Reeks :=
  reeks_van (groupby_sum Z.compare Qplus
               (map (fun kw => (periode (datetime kw), injectie kw)) kwartieren)).

Definition maand_winst (inst : Instellingen) (kwartieren : list Kwartier)
    (res : list Resultaat) : Reeks :=
  reeks_op Qplus
    (reeks_maal (reeks_op Qminus (maand_zonder_van_net kwartieren)
                                 (maand_energie_van_net res))
                (prijs_import inst))
    (reeks_maal (reeks_op Qminus (maand_energie_naar_net res)
                                 (maand_zonder_naar_net kwartieren))
                (prijs_export inst)).
End PerMaand.

(** ** From the uploaded rows to [df_kwartier] (app.py, lines 37-51)

    A row of the uploaded table once its cells are read: [to_datetime] and
    [to_numeric] are both called with [errors="coerce"], so a cell that
    does not parse is NaT, respectively NaN ([None] here).  A reading is a
    finite number or NaN: a cell that [to_numeric] reads as an infinity has
    no counterpart among the rationals and is not covered. *)

Record Rij := {
  rij_datetime : option Tijd;
  rij_type : string;
  rij_vermogen : option Q
}.

(** The uploaded table, as [read_csv] returned it: its column names as
    line 38 leaves them (lower case, stripped) and its rows.  The columns
    [datum], [tijdstip] and [type] hold text.  An upload on which
    [read_csv], the [.str] accessors or the concatenation of line 47 raise
    (an empty or ragged file, a [type] or [datum] column of numbers) is no
    [Bestand] and is not covered. *)
Record Bestand := {
  kolommen : list string;
  rijen : list Rij
}.

Definition vereist : list string :=
  ["datum"; "tijdstip"; "type"; "vermogen"]%string.

Definition issubset (a b : list string) : bool :=
  forallb (fun x => existsb (String.eqb x) b) a.

Definition kleine_letter (c : ascii) : ascii :=
  let n := nat_of_ascii c in
  if (65 <=? n)%nat && (n <=? 90)%nat then ascii_of_nat (n + 32) else c.

Fixpoint kleine_letters (s : string) : string :=
  match s with
  | EmptyString => EmptyString
  | String c s' => String (kleine_letter c) (kleine_letters s')
  end.

(** [str.contains(patroon, case=False)] for a pattern of plain lower-case
    letters. *)
Definition contains (patroon s : string) : bool :=
  match String.index 0 patroon (kleine_letters s) with
  | Some _ => true
  | None => false
  end.

(** A boolean as a factor: [True * x] is [x], [False * x] is [0]; NaN
    stays NaN. *)
Definition bool_maal (b : bool) (x : option Q) : option Q :=
  option_map (fun v => (if b then 1 else 0) * v) x.

Definition rij_afname (r : Rij) : option Q :=
  bool_maal (contains "afname" (rij_type r)) (rij_vermogen r).

Definition rij_injectie (r : Rij) : option Q :=
  bool_maal (contains "injectie" (rij_type r)) (rij_vermogen r).

Definition tijd_vergelijk (a b : Tijd) : comparison :=
  match Z.compare (jaar a) (jaar b) with
  | Eq =>
      match Z.compare (maand a) (maand b) with
      | Eq =>
          match Z.compare (dag a) (dag b) with
          | Eq =>
              match Z.compare (uur a) (uur b) with
              | Eq =>
                  match Z.compare (minuut a) (minuut b) with
                  | Eq =>
                      match Z.compare (seconde a) (seconde b) with
                      | Eq => Z.compare (nanoseconde a) (nanoseconde b)
                      | c => c
                      end
                  | c => c
                  end
              | c => c
              end
          | c => c
          end
      | c => c
      end
  | c => c
  end.

(** The sum of a group skips NaN, that is, counts it as nothing. *)
Definition zonder_nan (x : option Q) : Q :=
  match x with
  | Some v => v
  | None => 0
  end.

Definition paar_plus (a b : Q * Q) : Q * Q :=
  (fst a + fst b, snd a + snd b).

(** [df.groupby("datetime")[["afname", "injectie"]].sum()], sorted on
    [datetime]; rows whose timestamp is NaT belong to no group. *)
Definition df_kwartier (df : Bestand) : list Kwartier :=
  let met_tijd :=
    flat_map (fun r =>
                match rij_datetime r with
                | Some t => [(t, (zonder_nan (rij_afname r),
                                  zonder_nan (rij_injectie r)))]
                | None => []
                end)
             (rijen df) in
  map (fun g => {| datetime := fst g;
                   afname := fst (snd g);
                   injectie := snd (snd g) |})
      (groupby_sum tijd_vergelijk paar_plus met_tijd).

(** ** The run as a whole *)

Record Samenvatting := {
  energie_geladen_op_batterij : Q;
  energie_gehaald_van_net : Q;
  energie_zonder_batterij_gehaald_van_net : Q;
  energie_teruggeleverd_aan_net : Q;
  energie_zonder_batterij_teruggeleverd_aan_net : Q;
  eindsituatie_batterij : Q;
  batterij_vol_uren : Q;
  batterij_leeg_uren : Q;
  batterij_vol_pct : Q;
  batterij_leeg_pct : Q;
  besparing_euro : Q
}.

(** What a run of the script ends in. *)
Inductive Uitkomst :=
| GeenBestand
    (* no file uploaded: [st.info] *)
| KolommenFout
    (* a required column is missing: [st.error], nothing is simulated *)
| Uitzondering
    (* an exception that the script does not catch *)
| Voltooid (res : list Resultaat) (samenvatting : Samenvatting) (maand_df : Reeks).

(** [res = pd.DataFrame(resultaten)] has the columns of the dicts, so none
    at all when [resultaten] is empty: the look-up of the column
    ["batterij_niveau (kWh)"] on line 104 then raises a [KeyError].  With
    at least one row the statistics are computed; a percentage exists when
    its division does. *)
Definition app_py (inst : Instellingen) (uploaded_file : option Bestand) : Uitkomst :=
  match uploaded_file with
  | None => GeenBestand
  | Some df =>
      if negb (issubset vereist (kolommen df)) then KolommenFout
      else
        let kwartieren := df_kwartier df in
        let eind := simuleer inst kwartieren in
        let res := resultaten eind in
        match res with
        | [] => Uitzondering
        | _ :: _ =>
            match pct_vol inst res, pct_leeg inst res with
            | Some pv, Some pl =>
                Voltooid res
                  {| energie_geladen_op_batterij := energie_op_batterij eind;
                     energie_gehaald_van_net := energie_van_net eind;
                     energie_zonder_batterij_gehaald_van_net :=
                       energie_zonder_batterij_van_net eind;
                     energie_teruggeleverd_aan_net := energie_naar_net eind;
                     energie_zonder_batterij_teruggeleverd_aan_net :=
                       energie_zonder_batterij_naar_net eind;
                     eindsituatie_batterij := batterij_niveau eind;
                     batterij_vol_uren := tijd_vol_uren inst res;
                     batterij_leeg_uren := tijd_leeg_uren inst res;
                     batterij_vol_pct := pv;
                     batterij_leeg_pct := pl;
                     besparing_euro := besparing inst eind |}
                  (maand_winst to_period_M inst kwartieren res)
            | _, _ => Uitzondering
            end
        end
  end.

(** ** Settings and inputs used in examples *)

(** The scenario of the specification: 5 kWh, 2.5 kW, efficiencies 0.95,
    SoC between 10 and 90 percent, no reaction time. *)
Definition inst_scenario : Instellingen := {|
  batterij_capaciteit := 5;
  max_vermogen_kW := 2.5;
  eff_laden_slider := 95;
  eff_ontladen_slider := 95;
  soc_min_pct := 10;
  soc_max_pct := 90;
  reactietijd_laden := 0;
  reactietijd_ontladen := 0;
  prijs_import := 0.30;
  prijs_export := 0.07
|}.

Definition t0 : Tijd :=
  {| jaar := 2024; maand := 1; dag := 1; uur := 0; minuut := 0;
     seconde := 0; nanoseconde := 0 |}.

Definition t1 : Tijd :=
  {| jaar := 2024; maand := 1; dag := 1; uur := 0; minuut := 15;
     seconde := 0; nanoseconde := 0 |}.

Definition t_feb : Tijd :=
  {| jaar := 2024; maand := 2; dag := 1; uur := 0; minuut := 0;
     seconde := 0; nanoseconde := 0 |}.

Definition kw_scenario : Kwartier :=
  {| datetime := t0; afname := 0; injectie := 1 |}.

Definition kw_beide : Kwartier :=
  {| datetime := t0; afname := 1; injectie := 1 |}.


(** The scenario with both efficiencies 0. *)
Definition inst_nul_rendement : Instellingen := {|
  batterij_capaciteit := 5;
  max_vermogen_kW := 2.5;
  eff_laden_slider := 0;
  eff_ontladen_slider := 0;
  soc_min_pct := 10;
  soc_max_pct := 90;
  reactietijd_laden := 0;
  reactietijd_ontladen := 0;
  prijs_import := 0.30;
  prijs_export := 0.07
|}.



(** An upload with the four columns and no rows. *)
Definition bestand_zonder_rijen : Bestand := {|
  kolommen := vereist;
  rijen := []
|}.


(** A bucket without import and without export. *)
Definition kw_nul : Kwartier :=
  {| datetime := t1; afname := 0; injectie := 0 |}.

(** The scenario with both SoC sliders at 50 percent: the battery starts
    at its upper and at its lower bound. *)
Definition inst_half : Instellingen := {|
  batterij_capaciteit := 5;
  max_vermogen_kW := 2.5;
  eff_laden_slider := 95;
  eff_ontladen_slider := 95;
  soc_min_pct := 50;
  soc_max_pct := 50;
  reactietijd_laden := 0;
  reactietijd_ontladen := 0;
  prijs_import := 0.30;
  prijs_export := 0.07
|}.

(** ** Predicates used in the statements *)

(** What the simulation needs of the settings; the widget ranges give it. *)
Record bruikbaar (inst : Instellingen) : Prop := {
  bruikbaar_vermogen : 0 <= max_energie_per_kwartier inst;
  bruikbaar_eff_laden : 0 <= eff_laden inst;
  bruikbaar_eff_ontladen : 0 <= eff_ontladen inst;
  bruikbaar_begin_min : soc_min inst <= batterij_capaciteit inst / 2;
  bruikbaar_begin_max : batterij_capaciteit inst / 2 <= soc_max inst
}.

(** What holds of every row of a run within the widget ranges on
    non-negative buckets. *)
Definition rij_in_orde (inst : Instellingen) (r : Resultaat) : Prop :=
  (soc_min inst <= batterij_niveau_kWh r /\ batterij_niveau_kWh r <= soc_max inst) /\
  (0 <= opladen_kWh r /\ 0 <= ontladen_kWh r) /\
  (0 <= van_net_kWh r /\ van_net_kWh r <= afname_kWh r) /\
  (0 <= naar_net_kWh r /\ naar_net_kWh r <= injectie_kWh r).

Definition toestand_in_orde (inst : Instellingen) (st : Toestand) : Prop :=
  (soc_min inst <= batterij_niveau st /\ batterij_niveau st <= soc_max inst) /\
  Forall (rij_in_orde inst) (resultaten st).

(** The sum of a list of amounts. *)
Definition som (l : list Q) : Q := fold_right Qplus 0 l.

(** The value that the groups [g] have at label [k], 0 without such a
    group. *)
Definition waarde (g : list (Z * Q)) (k : Z) : Q :=
  match find (fun kv => Z.eqb (fst kv) k) g with
  | Some kv => snd kv
  | None => 0
  end.

(** The groups with labels [ks] and the value [h k] at label [k]. *)
Definition tabel (ks : list Z) (h : Z -> Q) : list (Z * Q) :=
  map (fun k => (k, h k)) ks.

(** The totals that the loop keeps are the sums of the columns of its rows. *)
Definition totalen_kloppen (st : Toestand) : Prop :=
  energie_van_net st == som (map van_net_kWh (resultaten st)) /\
  energie_naar_net st == som (map naar_net_kWh (resultaten st)) /\
  energie_zonder_batterij_van_net st == som (map afname_kWh (resultaten st)) /\
  energie_zonder_batterij_naar_net st == som (map injectie_kWh (resultaten st)).


(** One timestamp is before another. *)
Definition tijd_lt (a b : Tijd) : Prop := tijd_vergelijk a b = Lt.

(** The labels of the groups of a column of keys. *)
Definition labels (ks : list Z) : list Z :=
  fold_left (fun acc k => voeg_label k acc) ks [].

(** ** The loop on binary64 floats

    The loop of lines 54-99 and the savings of lines 114-115 once more, on
    the floats that Python and numpy compute with.  Every operation rounds
    as IEEE 754 prescribes; [min] and [max] compare the way Python's
    built-ins do. *)

Module Vlottend.
Import PrimFloat.
Local Open Scope float_scope.
Local Set Warnings "-inexact-float".

(** An integer as a float; exact below 2^53. *)
Fixpoint van_positief (p : positive) : float :=
  match p with
  | xH => 1
  | xO p' => 2 * van_positief p'
  | xI p' => 2 * van_positief p' + 1
  end.

Definition van_geheel (z : Z) : float :=
  match z with
  | Z0 => 0
  | Zpos p => van_positief p
  | Zneg p => - van_positief p
  end.

(** [min(a, b)] keeps [a] unless [b < a]; [max(a, b)] keeps [a] unless
    [a < b]. *)
Definition min2 (a b : float) : float := if b <? a then b else a.

Definition max2 (a b : float) : float := if a <? b then b else a.

Definition min3 (a b c : float) : float := min2 (min2 a b) c.

Record Instellingen := {
  batterij_capaciteit : float;
  max_vermogen_kW : float;
  eff_laden_slider : Z;
  eff_ontladen_slider : Z;
  soc_min_pct : Z;
  soc_max_pct : Z;
  reactietijd_laden : Z;
  reactietijd_ontladen : Z;
  prijs_import : float;
  prijs_export : float
}.

(** The widget ranges of lines 22-29. *)
Definition binnen_bereik (inst : Instellingen) : bool :=
  (1 <=? batterij_capaciteit inst) && (batterij_capaciteit inst <=? 100) &&
  (0.1 <=? max_vermogen_kW inst) && (max_vermogen_kW inst <=? 20) &&
  (70 <=? eff_laden_slider inst)%Z && (eff_laden_slider inst <=? 100)%Z &&
  (70 <=? eff_ontladen_slider inst)%Z && (eff_ontladen_slider inst <=? 100)%Z &&
  (0 <=? soc_min_pct inst)%Z && (soc_min_pct inst <=? 50)%Z &&
  (50 <=? soc_max_pct inst)%Z && (soc_max_pct inst <=? 100)%Z &&
  (0 <=? reactietijd_laden inst)%Z && (reactietijd_laden inst <=? 60)%Z &&
  (0 <=? reactietijd_ontladen inst)%Z && (reactietijd_ontladen inst <=? 60)%Z.

Definition eff_laden (inst : Instellingen) : float :=
  van_geheel (eff_laden_slider inst) / 100.

Definition eff_ontladen (inst : Instellingen) : float :=
  van_geheel (eff_ontladen_slider inst) / 100.

Definition kwartier_uur : float := 0.25.

Definition max_energie_per_kwartier (inst : Instellingen) : float :=
  max_vermogen_kW inst * kwartier_uur.

Definition soc_min (inst : Instellingen) : float :=
  van_geheel (soc_min_pct inst) / 100 * batterij_capaciteit inst.

Definition soc_max (inst : Instellingen) : float :=
  van_geheel (soc_max_pct inst) / 100 * batterij_capaciteit inst.

Definition vertraging_laden (inst : Instellingen) : float :=
  max2 0 (min2 1 (1 - van_geheel (reactietijd_laden inst) / 900)).

Definition vertraging_ontladen (inst : Instellingen) : float :=
  max2 0 (min2 1 (1 - van_geheel (reactietijd_ontladen inst) / 900)).

Record Kwartier := {
  datetime : Tijd;
  afname : float;
  injectie : float
}.

Definition niet_negatief (kw : Kwartier) : bool :=
  (0 <=? afname kw) && (0 <=? injectie kw).

Record Resultaat := {
  tijd : Tijd;
  afname_kWh : float;
  injectie_kWh : float;
  opladen_kWh : float;
  ontladen_kWh : float;
  van_net_kWh : float;
  naar_net_kWh : float;
  batterij_niveau_kWh : float
}.

Record Toestand := {
  batterij_niveau : float;
  resultaten : list Resultaat;
  energie_op_batterij : float;
  energie_van_net : float;
  energie_naar_net : float;
  energie_zonder_batterij_van_net : float;
  energie_zonder_batterij_naar_net : float
}.

Definition begin (inst : Instellingen) : Toestand := {|
  batterij_niveau := batterij_capaciteit inst / 2;
  resultaten := [];
  energie_op_batterij := 0;
  energie_van_net := 0;
  energie_naar_net := 0;
  energie_zonder_batterij_van_net := 0;
  energie_zonder_batterij_naar_net := 0
|}.

Definition stap (inst : Instellingen) (st : Toestand) (kw : Kwartier) : Toestand :=
  let niveau0 := batterij_niveau st in
  (* Laden *)
  let potentieel_opladen := injectie kw * eff_laden inst * vertraging_laden inst in
  let effectief_opladen :=
    min3 potentieel_opladen (max_energie_per_kwartier inst) (soc_max inst - niveau0) in
  let niveau1 := niveau0 + effectief_opladen in
  let naar_net :=
    max2 (injectie kw
          - effectief_opladen / (eff_laden inst * vertraging_laden inst + 1e-9))
         0 in
  (* Ontladen *)
  let potentieel_ontladen :=
    min3 (afname kw / (eff_ontladen inst * vertraging_ontladen inst + 1e-9))
         (max_energie_per_kwartier inst)
         (niveau1 - soc_min inst) in
  let effectief_ontladen :=
    potentieel_ontladen * eff_ontladen inst * vertraging_ontladen inst in
  let niveau2 := niveau1 - potentieel_ontladen in
  let van_net := max2 (afname kw - effectief_ontladen) 0 in
  {| batterij_niveau := niveau2;
     resultaten := resultaten st ++
       [ {| tijd := datetime kw;
            afname_kWh := afname kw;
            injectie_kWh := injectie kw;
            opladen_kWh := effectief_opladen;
            ontladen_kWh := effectief_ontladen;
            van_net_kWh := van_net;
            naar_net_kWh := naar_net;
            batterij_niveau_kWh := niveau2 |} ];
     energie_op_batterij := energie_op_batterij st + effectief_opladen;
     energie_van_net := energie_van_net st + van_net;
     energie_naar_net := energie_naar_net st + naar_net;
     energie_zonder_batterij_van_net :=
       energie_zonder_batterij_van_net st + afname kw;
     energie_zonder_batterij_naar_net :=
       energie_zonder_batterij_naar_net st + injectie kw |}.

Definition simuleer (inst : Instellingen) (kwartieren : list Kwartier) : Toestand :=
  fold_left (stap inst) kwartieren (begin inst).

Definition besparing (inst : Instellingen) (st : Toestand) : float :=
  (energie_zonder_batterij_van_net st - energie_van_net st) * prijs_import inst
  + (energie_naar_net st - energie_zonder_batterij_naar_net st) * prijs_export inst.

(** The sum of a column over the rows of month [k], added up in row order
    from 0.  (For a month of one row, the case evaluated below, every way
    of adding gives the value of that row.) *)
Definition maand_som {A : Type} (periode : Tijd -> Z) (k : Z)
    (wanneer : A -> Tijd) (kolom : A -> float) (rijen : list A) : float :=
  fold_left (fun s a => if (periode (wanneer a) =? k)%Z then s + kolom a else s)
            rijen 0.

(** The savings of month [k]: the formula of lines 147-148 on the sums of
    that month. *)
Definition maand_winst (periode : Tijd -> Z) (inst : Instellingen)
    (kwartieren : list Kwartier) (res : list Resultaat) (k : Z) : float :=
  (maand_som periode k datetime afname kwartieren
   - maand_som periode k tijd van_net_kWh res) * prijs_import inst
  + (maand_som periode k tijd naar_net_kWh res
     - maand_som periode k datetime injectie kwartieren) * prijs_export inst.


(** The scenario of the specification, and the smallest capacity with
    [soc_min] at 5 percent. *)
Definition inst_scenario : Instellingen := {|
  batterij_capaciteit := 5;
  max_vermogen_kW := 2.5;
  eff_laden_slider := 95;
  eff_ontladen_slider := 95;
  soc_min_pct := 10;
  soc_max_pct := 90;
  reactietijd_laden := 0;
  reactietijd_ontladen := 0;
  prijs_import := 0.30;
  prijs_export := 0.07
|}.

Definition inst_klein : Instellingen := {|
  batterij_capaciteit := 1;
  max_vermogen_kW := 2.5;
  eff_laden_slider := 95;
  eff_ontladen_slider := 95;
  soc_min_pct := 5;
  soc_max_pct := 90;
  reactietijd_laden := 0;
  reactietijd_ontladen := 0;
  prijs_import := 0.30;
  prijs_export := 0.07
|}.

Definition kwartier (t : Tijd) (a i : float) : Kwartier :=
  {| datetime := t; afname := a; injectie := i |}.

End Vlottend.

(** * Properties *)

(** Closed goals on rationals are decided by evaluation. *)
Ltac reken :=
  vm_compute; first [reflexivity | discriminate | intro; discriminate].

(** The cases of a comparison of two timestamps, field by field. *)
Ltac tijd_gevallen :=
  unfold tijd_vergelijk;
  repeat match goal with
         | |- context [Z.compare ?x ?y] =>
             destruct (Z.compare_spec x y) as [?E | ?E | ?E]; cbv iota
         end.

(** ** The model on small inputs *)

Example contains_voorbeeld :
  contains "afname" "Afname Dag" = true /\
  contains "injectie" "Afname Dag" = false /\
  contains "injectie" "INJECTIE nacht" = true.
Proof. repeat split; reflexivity. Qed.

(** Two readings of one timestamp end up in one bucket, and the buckets
    come out in time order. *)
Example df_kwartier_voorbeeld :
  let df := {| kolommen := vereist;
               rijen := [ {| rij_datetime := Some t1; rij_type := "Afname Dag";
                             rij_vermogen := Some 0.5 |};
                          {| rij_datetime := Some t0; rij_type := "Injectie Dag";
                             rij_vermogen := Some 2 |};
                          {| rij_datetime := None; rij_type := "Afname Dag";
                             rij_vermogen := Some 7 |};
                          {| rij_datetime := Some t1; rij_type := "Afname Nacht";
                             rij_vermogen := Some 0.25 |} ] |} in
  map datetime (df_kwartier df) = [t0; t1] /\
  Forall2 Qeq (map afname (df_kwartier df)) [0; 0.75] /\
  Forall2 Qeq (map injectie (df_kwartier df)) [2; 0].
Proof.
  repeat split; try reflexivity; repeat constructor; reken.
Qed.

(** A run over January and February has a savings row for each month. *)
Example maand_winst_voorbeeld :
  let kwartieren := [ {| datetime := t0; afname := 0; injectie := 1 |};
                      {| datetime := t1; afname := 1; injectie := 0 |};
                      {| datetime := t_feb; afname := 2; injectie := 0 |} ] in
  let res := resultaten (simuleer inst_scenario kwartieren) in
  map fst (maand_winst to_period_M inst_scenario kwartieren res) = [648; 649]%Z.
Proof. vm_compute. reflexivity. Qed.

(** ** Arithmetic of the derived settings *)

Lemma min3_le_1 (a b c : Q) : min3 a b c <= a.
Proof.
  unfold min3.
  apply Qle_trans with (Qmin a b); [apply Q.le_min_l | apply Q.le_min_l].
Qed.

Lemma min3_le_2 (a b c : Q) : min3 a b c <= b.
Proof.
  unfold min3.
  apply Qle_trans with (Qmin a b); [apply Q.le_min_l | apply Q.le_min_r].
Qed.

Lemma min3_le_3 (a b c : Q) : min3 a b c <= c.
Proof. unfold min3. apply Q.le_min_r. Qed.

Lemma min3_glb (a b c p : Q) : p <= a -> p <= b -> p <= c -> p <= min3 a b c.
Proof. intros. unfold min3. repeat apply Q.min_glb; assumption. Qed.


Lemma klem_bereik (x : Q) : 0 <= Qmax 0 (Qmin 1 x) /\ Qmax 0 (Qmin 1 x) <= 1.
Proof.
  split.
  - apply Q.le_max_l.
  - apply Q.max_lub; [lra | apply Q.le_min_l].
Qed.

Lemma vertraging_laden_bereik (inst : Instellingen) :
  0 <= vertraging_laden inst /\ vertraging_laden inst <= 1.
Proof. apply klem_bereik. Qed.

Lemma vertraging_ontladen_bereik (inst : Instellingen) :
  0 <= vertraging_ontladen inst /\ vertraging_ontladen inst <= 1.
Proof. apply klem_bereik. Qed.

Lemma inject_Z_nonneg (z : Z) : (0 <= z)%Z -> 0 <= inject_Z z.
Proof. intros H. change 0 with (inject_Z 0). rewrite <- Zle_Qle. exact H. Qed.

Lemma gedeeld_door_100 (x : Q) : x / 100 == x * 0.01.
Proof. field. Qed.

Lemma gedeeld_door_2 (x : Q) : x / 2 == x * 0.5.
Proof. field. Qed.

Lemma eff_nonneg (z : Z) : (0 <= z)%Z -> 0 <= inject_Z z / 100.
Proof.
  intros H. apply inject_Z_nonneg in H.
  rewrite gedeeld_door_100. lra.
Qed.

Lemma deler_pos (e v : Q) : 0 <= e -> 0 <= v -> 0 < e * v + 0.000000001.
Proof.
  intros He Hv.
  assert (0 <= e * v) by (apply Qmult_le_0_compat; assumption).
  lra.
Qed.

Lemma quotient_nonneg (x d : Q) : 0 <= x -> 0 < d -> 0 <= x / d.
Proof. intros Hx Hd. apply Qle_shift_div_l; lra. Qed.


Lemma binnen_bereik_bruikbaar (inst : Instellingen) :
  binnen_bereik inst -> bruikbaar inst.
Proof.
  intros (Hc1 & Hc2 & Hp1 & Hp2 & Hel & Heo & Hmin & Hmax & _ & _).
  constructor.
  - unfold max_energie_per_kwartier, kwartier_uur. lra.
  - apply eff_nonneg. lia.
  - apply eff_nonneg. lia.
  - unfold soc_min. rewrite gedeeld_door_100, gedeeld_door_2.
    assert (inject_Z (soc_min_pct inst) <= 50).
    { change 50 with (inject_Z 50). rewrite <- Zle_Qle. lia. }
    assert (0 <= (50 - inject_Z (soc_min_pct inst)) * batterij_capaciteit inst).
    { apply Qmult_le_0_compat; lra. }
    lra.
  - unfold soc_max. rewrite gedeeld_door_100, gedeeld_door_2.
    assert (50 <= inject_Z (soc_max_pct inst)).
    { change 50 with (inject_Z 50). rewrite <- Zle_Qle. lia. }
    assert (0 <= (inject_Z (soc_max_pct inst) - 50) * batterij_capaciteit inst).
    { apply Qmult_le_0_compat; lra. }
    lra.
Qed.

(** ** The two phases of one step *)

Section EenStap.
Variable inst : Instellingen.
Hypothesis Hinst : bruikbaar inst.

Lemma effectief_opladen_nonneg (niveau : Q) (kw : Kwartier) :
  0 <= injectie kw -> niveau <= soc_max inst ->
  0 <= effectief_opladen inst niveau kw.
Proof.
  intros Hinj Hniv. destruct Hinst as [Hp Hel _ _ _].
  unfold effectief_opladen. apply min3_glb.
  - unfold potentieel_opladen.
    apply Qmult_le_0_compat; [apply Qmult_le_0_compat; assumption |].
    apply vertraging_laden_bereik.
  - exact Hp.
  - lra.
Qed.

Lemma potentieel_ontladen_nonneg (niveau : Q) (kw : Kwartier) :
  0 <= afname kw -> soc_min inst <= niveau ->
  0 <= potentieel_ontladen inst niveau kw.
Proof.
  intros Haf Hniv. destruct Hinst as [Hp _ Heo _ _].
  unfold potentieel_ontladen. apply min3_glb.
  - apply quotient_nonneg; [exact Haf |].
    apply deler_pos; [exact Heo | apply vertraging_ontladen_bereik].
  - exact Hp.
  - lra.
Qed.

Lemma effectief_ontladen_nonneg (niveau : Q) (kw : Kwartier) :
  0 <= afname kw -> soc_min inst <= niveau ->
  0 <= effectief_ontladen inst niveau kw.
Proof.
  intros Haf Hniv. unfold effectief_ontladen.
  apply Qmult_le_0_compat; [apply Qmult_le_0_compat |].
  - apply potentieel_ontladen_nonneg; assumption.
  - apply Hinst.
  - apply vertraging_ontladen_bereik.
Qed.

Lemma naar_net_bereik (niveau : Q) (kw : Kwartier) :
  0 <= injectie kw -> niveau <= soc_max inst ->
  0 <= naar_net inst niveau kw /\ naar_net inst niveau kw <= injectie kw.
Proof.
  intros Hinj Hniv. unfold naar_net. split.
  - apply Q.le_max_r.
  - apply Q.max_lub; [| exact Hinj].
    assert (0 <= effectief_opladen inst niveau kw
                 / (eff_laden inst * vertraging_laden inst + 0.000000001)).
    { apply quotient_nonneg.
      - apply effectief_opladen_nonneg; assumption.
      - apply deler_pos; [apply Hinst | apply vertraging_laden_bereik]. }
    lra.
Qed.

Lemma van_net_bereik (niveau : Q) (kw : Kwartier) :
  0 <= afname kw -> soc_min inst <= niveau ->
  0 <= van_net inst niveau kw /\ van_net inst niveau kw <= afname kw.
Proof.
  intros Haf Hniv. unfold van_net. split.
  - apply Q.le_max_r.
  - apply Q.max_lub; [| exact Haf].
    pose proof (effectief_ontladen_nonneg niveau kw Haf Hniv). lra.
Qed.

(** The level stays between the bounds over both phases. *)
Lemma niveau_na_laden_bereik (niveau : Q) (kw : Kwartier) :
  0 <= injectie kw ->
  soc_min inst <= niveau -> niveau <= soc_max inst ->
  soc_min inst <= niveau + effectief_opladen inst niveau kw /\
  niveau + effectief_opladen inst niveau kw <= soc_max inst.
Proof.
  intros Hinj Hlo Hhi.
  pose proof (effectief_opladen_nonneg niveau kw Hinj Hhi).
  pose proof (min3_le_3 (potentieel_opladen inst kw)
                (max_energie_per_kwartier inst) (soc_max inst - niveau)) as H3.
  fold (effectief_opladen inst niveau kw) in H3.
  split; lra.
Qed.

Lemma niveau_na_ontladen_bereik (niveau : Q) (kw : Kwartier) :
  0 <= afname kw ->
  soc_min inst <= niveau -> niveau <= soc_max inst ->
  soc_min inst <= niveau - potentieel_ontladen inst niveau kw /\
  niveau - potentieel_ontladen inst niveau kw <= soc_max inst.
Proof.
  intros Haf Hlo Hhi.
  pose proof (potentieel_ontladen_nonneg niveau kw Haf Hlo).
  pose proof (min3_le_3
                (afname kw / (eff_ontladen inst * vertraging_ontladen inst + 0.000000001))
                (max_energie_per_kwartier inst) (niveau - soc_min inst)) as H3.
  fold (potentieel_ontladen inst niveau kw) in H3.
  split; lra.
Qed.
End EenStap.

(** ** Invariants of the loop *)

Lemma fold_stap_behoudt (inst : Instellingen) (I : Toestand -> Prop)
    (kwartieren : list Kwartier) :
  (forall st kw, In kw kwartieren -> I st -> I (stap inst st kw)) ->
  forall st, I st -> I (fold_left (stap inst) kwartieren st).
Proof.
  induction kwartieren as [| kw rest IH]; intros Hstap st Hst; simpl.
  - exact Hst.
  - apply IH.
    + intros st' kw' Hin. apply Hstap. right. exact Hin.
    + apply Hstap; [left; reflexivity | exact Hst].
Qed.

Lemma resultaten_lengte (inst : Instellingen) (kwartieren : list Kwartier) :
  forall st,
    List.length (resultaten (fold_left (stap inst) kwartieren st))
    = (List.length (resultaten st) + List.length kwartieren)%nat.
Proof.
  induction kwartieren as [| kw rest IH]; intros st; simpl.
  - lia.
  - rewrite IH. simpl. rewrite length_app. simpl. lia.
Qed.

Lemma stap_in_orde (inst : Instellingen) (st : Toestand) (kw : Kwartier) :
  bruikbaar inst -> niet_negatief kw ->
  toestand_in_orde inst st -> toestand_in_orde inst (stap inst st kw).
Proof.
  intros Hinst [Haf Hinj] [[Hlo Hhi] Hres].
  destruct (niveau_na_laden_bereik inst Hinst (batterij_niveau st) kw Hinj Hlo Hhi)
    as [Hlo1 Hhi1].
  destruct (niveau_na_ontladen_bereik inst Hinst _ kw Haf Hlo1 Hhi1) as [Hlo2 Hhi2].
  split; simpl.
  - split; assumption.
  - apply Forall_app. split; [exact Hres |].
    constructor; [| constructor].
    unfold rij_in_orde; simpl. repeat split; try assumption.
    + apply effectief_opladen_nonneg; assumption.
    + apply effectief_ontladen_nonneg; assumption.
    + apply van_net_bereik; assumption.
    + apply van_net_bereik; assumption.
    + apply naar_net_bereik; assumption.
    + apply naar_net_bereik; assumption.
Qed.

Lemma simuleer_in_orde (inst : Instellingen) (kwartieren : list Kwartier) :
  bruikbaar inst -> Forall niet_negatief kwartieren ->
  toestand_in_orde inst (simuleer inst kwartieren).
Proof.
  intros Hinst Hkw. unfold simuleer.
  apply fold_stap_behoudt.
  - intros st kw Hin. apply stap_in_orde; [exact Hinst |].
    rewrite Forall_forall in Hkw. apply Hkw. exact Hin.
  - split; simpl; [split; apply Hinst | constructor].
Qed.

Lemma scenario_binnen_bereik : binnen_bereik inst_scenario.
Proof.
  unfold binnen_bereik, inst_scenario; simpl.
  repeat split; try lia; unfold Qle; simpl; lia.
Defined.

Lemma scenario_niet_negatief : Forall niet_negatief [kw_scenario].
Proof.
  constructor; [| constructor].
  split; unfold Qle; simpl; lia.
Defined.

(** The rows that a run adds, bucket by bucket: when every step keeps [I]
    and adds one row that stands in [P] to its bucket, the run adds one row
    for every bucket, in order, each in [P] to its bucket. *)
Lemma fold_stap_per_kwartier (inst : Instellingen) (I : Toestand -> Prop)
    (P : Kwartier -> Resultaat -> Prop) (kwartieren : list Kwartier) :
  (forall st kw, In kw kwartieren -> I st ->
     I (stap inst st kw) /\
     exists r, resultaten (stap inst st kw) = resultaten st ++ [r] /\ P kw r) ->
  forall st, I st ->
    exists nieuw,
      resultaten (fold_left (stap inst) kwartieren st) = resultaten st ++ nieuw /\
      Forall2 P kwartieren nieuw.
Proof.
  induction kwartieren as [| kw rest IH]; intros Hstap st Hst; simpl.
  - exists []. split; [symmetry; apply app_nil_r | constructor].
  - destruct (Hstap st kw (or_introl eq_refl) Hst) as (Hst' & r & Hr & HP).
    destruct (IH (fun st' kw' Hin => Hstap st' kw' (or_intror Hin))
                 (stap inst st kw) Hst') as (nieuw & Hn & HF).
    exists (r :: nieuw). split.
    + rewrite Hn, Hr, <- app_assoc. reflexivity.
    + constructor; assumption.
Qed.

Lemma simuleer_per_kwartier (inst : Instellingen) (I : Toestand -> Prop)
    (P : Kwartier -> Resultaat -> Prop) (kwartieren : list Kwartier) :
  (forall st kw, In kw kwartieren -> I st ->
     I (stap inst st kw) /\
     exists r, resultaten (stap inst st kw) = resultaten st ++ [r] /\ P kw r) ->
  I (begin inst) ->
  Forall2 P kwartieren (resultaten (simuleer inst kwartieren)).
Proof.
  intros Hstap Hbegin.
  destruct (fold_stap_per_kwartier inst I P kwartieren Hstap (begin inst) Hbegin)
    as (nieuw & Hn & HF).
  unfold simuleer. rewrite Hn. exact HF.
Qed.

(** ** State of charge *)

Lemma soc_volgorde (inst : Instellingen) :
  0 <= batterij_capaciteit inst ->
  (soc_min_pct inst <= soc_max_pct inst)%Z ->
  soc_min inst <= soc_max inst.
Proof.
  intros Hcap Hpct. unfold soc_min, soc_max.
  rewrite !gedeeld_door_100.
  assert (inject_Z (soc_min_pct inst) <= inject_Z (soc_max_pct inst))
    by (rewrite <- Zle_Qle; exact Hpct).
  assert (0 <= (inject_Z (soc_max_pct inst) - inject_Z (soc_min_pct inst))
               * batterij_capaciteit inst)
    by (apply Qmult_le_0_compat; lra).
  lra.
Qed.

(** The level that a step leaves lies between the bounds whatever the level
    before it was: charging stops at [soc_max], and discharging takes the
    level down to no less than [soc_min] and, when the level is below
    [soc_min], up to [soc_min]. *)
Lemma niveau_na_stap_bereik (inst : Instellingen) (niveau : Q) (kw : Kwartier) :
  0 <= max_energie_per_kwartier inst ->
  0 <= eff_ontladen inst ->
  soc_min inst <= soc_max inst ->
  0 <= afname kw ->
  let niveau1 := niveau + effectief_opladen inst niveau kw in
  soc_min inst <= niveau1 - potentieel_ontladen inst niveau1 kw /\
  niveau1 - potentieel_ontladen inst niveau1 kw <= soc_max inst.
Proof.
  intros Hmax Heo Hsoc Haf niveau1.
  assert (H1 : niveau1 <= soc_max inst).
  { pose proof (min3_le_3 (potentieel_opladen inst kw)
                  (max_energie_per_kwartier inst) (soc_max inst - niveau)) as H3.
    fold (effectief_opladen inst niveau kw) in H3. unfold niveau1. lra. }
  pose proof (min3_le_3
                (afname kw / (eff_ontladen inst * vertraging_ontladen inst + 0.000000001))
                (max_energie_per_kwartier inst) (niveau1 - soc_min inst)) as Hhi.
  fold (potentieel_ontladen inst niveau1 kw) in Hhi.
  assert (Hlo : Qmin 0 (niveau1 - soc_min inst) <= potentieel_ontladen inst niveau1 kw).
  { unfold potentieel_ontladen. apply min3_glb.
    - apply Qle_trans with 0; [apply Q.le_min_l |].
      apply quotient_nonneg; [exact Haf |].
      apply deler_pos; [exact Heo | apply vertraging_ontladen_bereik].
    - apply Qle_trans with 0; [apply Q.le_min_l | exact Hmax].
    - apply Q.le_min_r. }
  split; [lra |].
  destruct (Q.min_spec 0 (niveau1 - soc_min inst)) as [[_ E] | [_ E]];
    rewrite E in Hlo; lra.
Qed.

(** C1. In every run on buckets with non-negative import and export, with
    settings of non-negative capacity, inverter power and discharge
    efficiency and with [soc_min_pct] at most [soc_max_pct] (the widget
    ranges are such settings), the run starts from half the capacity and
    the level recorded in every row lies between [soc_min] and [soc_max],
    up to the tolerance 1e-6. *)
Theorem soc_binnen_grenzen (inst : Instellingen) (kwartieren : list Kwartier) :
  0 <= batterij_capaciteit inst ->
  0 <= max_vermogen_kW inst ->
  (0 <= eff_ontladen_slider inst)%Z ->
  (soc_min_pct inst <= soc_max_pct inst)%Z ->
  Forall niet_negatief kwartieren ->
  batterij_niveau (begin inst) == batterij_capaciteit inst / 2 /\
  Forall (fun r => soc_min inst - 0.000001 <= batterij_niveau_kWh r /\
                   batterij_niveau_kWh r <= soc_max inst + 0.000001)
         (resultaten (simuleer inst kwartieren)).
Proof.
  intros Hcap Hp Heo Hpct Hkw. split; [reflexivity |].
  assert (Hmax : 0 <= max_energie_per_kwartier inst).
  { unfold max_energie_per_kwartier, kwartier_uur. lra. }
  pose proof (eff_nonneg _ Heo) as Heo'. fold (eff_ontladen inst) in Heo'.
  pose proof (soc_volgorde inst Hcap Hpct) as Hsoc.
  unfold simuleer.
  apply (fold_stap_behoudt inst
           (fun st => Forall (fun r => soc_min inst - 0.000001 <= batterij_niveau_kWh r /\
                                       batterij_niveau_kWh r <= soc_max inst + 0.000001)
                             (resultaten st))).
  - intros st kw Hin Hres. simpl.
    apply Forall_app. split; [exact Hres |].
    constructor; [| constructor]. simpl.
    rewrite Forall_forall in Hkw. destruct (Hkw kw Hin) as [Haf _].
    destruct (niveau_na_stap_bereik inst (batterij_niveau st) kw Hmax Heo' Hsoc Haf)
      as [Hlo Hhi].
    split; lra.
  - constructor.
Qed.

Lemma soc_binnen_grenzen_witness :
  0 <= batterij_capaciteit inst_scenario /\
  0 <= max_vermogen_kW inst_scenario /\
  (0 <= eff_ontladen_slider inst_scenario)%Z /\
  (soc_min_pct inst_scenario <= soc_max_pct inst_scenario)%Z /\
  Forall niet_negatief [kw_scenario] /\
  batterij_niveau (begin inst_scenario) == batterij_capaciteit inst_scenario / 2 /\
  Forall (fun r => soc_min inst_scenario - 0.000001 <= batterij_niveau_kWh r /\
                   batterij_niveau_kWh r <= soc_max inst_scenario + 0.000001)
         (resultaten (simuleer inst_scenario [kw_scenario])).
Proof.
  assert (H1 : 0 <= batterij_capaciteit inst_scenario) by (vm_compute; discriminate).
  assert (H2 : 0 <= max_vermogen_kW inst_scenario) by (vm_compute; discriminate).
  assert (H3 : (0 <= eff_ontladen_slider inst_scenario)%Z) by (simpl; lia).
  assert (H4 : (soc_min_pct inst_scenario <= soc_max_pct inst_scenario)%Z)
    by (simpl; lia).
  repeat (split; [assumption |]).
  split; [exact scenario_niet_negatief |].
  exact (soc_binnen_grenzen inst_scenario [kw_scenario] H1 H2 H3 H4
           scenario_niet_negatief).
Defined.

(** ** Rate limits *)

(** C7. Whatever the state and the bucket, a step charges at most
    [max_energie_per_kwartier] and takes at most [max_energie_per_kwartier]
    out of the battery; the level after the step is the level before it
    plus the one and minus the other. *)
Theorem vermogensgrens (inst : Instellingen) (st : Toestand) (kw : Kwartier) :
  let opladen := effectief_opladen inst (batterij_niveau st) kw in
  let pot_ontladen := potentieel_ontladen inst (batterij_niveau st + opladen) kw in
  opladen <= max_energie_per_kwartier inst /\
  pot_ontladen <= max_energie_per_kwartier inst /\
  max_energie_per_kwartier inst == max_vermogen_kW inst * 0.25 /\
  batterij_niveau (stap inst st kw) == batterij_niveau st + opladen - pot_ontladen.
Proof.
  simpl. repeat split.
  - apply min3_le_2.
  - apply min3_le_2.
Qed.

(** ** The loop on floats, evaluated *)

Module VlottendGerekend.
Import PrimFloat Vlottend.
Local Open Scope float_scope.
Local Set Warnings "-inexact-float".

(** C10, as the specification states it, fails on the floats of the
    script.  With a capacity of 1 kWh and [soc_min] at 5 percent, all within
    the widget ranges, the bucket (import 50, export 0) leaves the level one
    rounding step below [soc_min]; the next bucket has import 0 and export
    0, yet its row has a negative discharge and a grid import above 0, its
    import. *)
Lemma net_boven_meting :
  let kwartieren := [kwartier t0 50 0; kwartier t1 0 0] in
  binnen_bereik inst_klein = true /\
  forallb niet_negatief kwartieren = true /\
  exists r1 r2,
    resultaten (simuleer inst_klein kwartieren) = [r1; r2] /\
    (batterij_niveau_kWh r1 <? soc_min inst_klein) = true /\
    (afname_kWh r2 =? 0) = true /\
    (ontladen_kWh r2 <? 0) = true /\
    (afname_kWh r2 <? van_net_kWh r2) = true.
Proof.
  split; [vm_compute; reflexivity |].
  split; [vm_compute; reflexivity |].
  do 2 eexists. split; [vm_compute; reflexivity |].
  repeat split; vm_compute; reflexivity.
Qed.


End VlottendGerekend.

(** ** Grid flows *)

(** C10, amended.  In every run whose settings lie within the widget
    ranges and whose buckets all have non-negative import and export, the
    table has one row for every bucket, and in the row of a bucket the grid
    import and the grid export are non-negative and exceed the import and
    the export of that bucket by no more than the tolerance 1e-6.  (Without
    rounding they do not exceed them at all; the floats of the script can
    exceed them in the last place, as evaluated above.) *)
Theorem net_niet_slechter (inst : Instellingen) (kwartieren : list Kwartier) :
  binnen_bereik inst ->
  Forall niet_negatief kwartieren ->
  Forall2 (fun kw r =>
             tijd r = datetime kw /\
             (0 <= van_net_kWh r /\ van_net_kWh r <= afname kw + 0.000001) /\
             (0 <= naar_net_kWh r /\ naar_net_kWh r <= injectie kw + 0.000001))
          kwartieren (resultaten (simuleer inst kwartieren)).
Proof.
  intros Hinst Hkw.
  apply binnen_bereik_bruikbaar in Hinst.
  apply (simuleer_per_kwartier inst (toestand_in_orde inst)).
  - intros st kw Hin Hst.
    rewrite Forall_forall in Hkw. pose proof (Hkw kw Hin) as Hnn.
    pose proof (stap_in_orde inst st kw Hinst Hnn Hst) as Hst'.
    split; [exact Hst' |].
    eexists. split; [reflexivity |].
    destruct Hst' as [_ Hres]. simpl in Hres.
    apply Forall_app in Hres. destruct Hres as [_ Hr].
    inversion Hr as [| r l Hrij _]; subst.
    destruct Hrij as (_ & _ & [Hv0 Hv1] & [Hn0 Hn1]). simpl in *.
    split; [reflexivity |]. split; split; try assumption; lra.
  - split; simpl; [split; apply Hinst | constructor].
Qed.

Lemma net_niet_slechter_witness :
  binnen_bereik inst_scenario /\
  Forall niet_negatief [kw_scenario] /\
  Forall2 (fun kw r =>
             tijd r = datetime kw /\
             (0 <= van_net_kWh r /\ van_net_kWh r <= afname kw + 0.000001) /\
             (0 <= naar_net_kWh r /\ naar_net_kWh r <= injectie kw + 0.000001))
          [kw_scenario] (resultaten (simuleer inst_scenario [kw_scenario])).
Proof.
  split; [exact scenario_binnen_bereik |].
  split; [exact scenario_niet_negatief |].
  exact (net_niet_slechter inst_scenario [kw_scenario]
           scenario_binnen_bereik scenario_niet_negatief).
Defined.

(** ** The scenario of the specification *)

(** C4. With 5 kWh, 2.5 kW, efficiencies 0.95, SoC between 10 and 90
    percent and no reaction time, the run over the single bucket
    (import 0, export 1.0) starts from 2.5 kWh, charges
    min(0.95, 0.625, 2.0) = 0.625 kWh, ends at 3.125 kWh and leaves an
    export of 1.0 - 0.625/0.95 up to 1e-8, which is 0.342 to three
    decimals. *)
Theorem scenario_een_kwartier :
  batterij_niveau (begin inst_scenario) == 2.5 /\
  potentieel_opladen inst_scenario kw_scenario == 0.95 /\
  max_energie_per_kwartier inst_scenario == 0.625 /\
  soc_max inst_scenario - batterij_niveau (begin inst_scenario) == 2.0 /\
  min3 0.95 0.625 2.0 == 0.625 /\
  exists r,
    resultaten (simuleer inst_scenario [kw_scenario]) = [r] /\
    opladen_kWh r == 0.625 /\
    batterij_niveau_kWh r == 3.125 /\
    Qabs (naar_net_kWh r - (1.0 - 0.625 / 0.95)) <= 0.00000001 /\
    0.3415 <= naar_net_kWh r /\ naar_net_kWh r < 0.3425.
Proof.
  repeat (split; [reken |]).
  eexists. split; [reflexivity |].
  repeat split; reken.
Qed.

(** ** A battery without room *)

Section GeenRuimte.
Variable inst : Instellingen.
Hypothesis Hinst : bruikbaar inst.
Hypothesis Hgelijk : soc_min inst == soc_max inst.

Lemma laden_zonder_ruimte (niveau : Q) (kw : Kwartier) :
  0 <= injectie kw -> niveau == soc_max inst ->
  effectief_opladen inst niveau kw == 0 /\
  naar_net inst niveau kw == injectie kw.
Proof.
  intros Hinj Hniv.
  assert (Hopl : effectief_opladen inst niveau kw == 0).
  { apply Qle_antisym.
    - pose proof (min3_le_3 (potentieel_opladen inst kw)
                    (max_energie_per_kwartier inst) (soc_max inst - niveau)) as H3.
      fold (effectief_opladen inst niveau kw) in H3. lra.
    - apply effectief_opladen_nonneg; [exact Hinst | exact Hinj | lra]. }
  split; [exact Hopl |].
  unfold naar_net. rewrite Hopl.
  unfold Qdiv. rewrite Qmult_0_l.
  rewrite Q.max_l; lra.
Qed.

Lemma ontladen_zonder_ruimte (niveau : Q) (kw : Kwartier) :
  0 <= afname kw -> niveau == soc_max inst ->
  potentieel_ontladen inst niveau kw == 0 /\
  effectief_ontladen inst niveau kw == 0 /\
  van_net inst niveau kw == afname kw.
Proof.
  intros Haf Hniv.
  assert (Hpot : potentieel_ontladen inst niveau kw == 0).
  { apply Qle_antisym.
    - pose proof (min3_le_3
                    (afname kw / (eff_ontladen inst * vertraging_ontladen inst + 0.000000001))
                    (max_energie_per_kwartier inst) (niveau - soc_min inst)) as H3.
      fold (potentieel_ontladen inst niveau kw) in H3. lra.
    - apply potentieel_ontladen_nonneg; [exact Hinst | exact Haf | lra]. }
  assert (Heff : effectief_ontladen inst niveau kw == 0).
  { unfold effectief_ontladen. rewrite Hpot. ring. }
  repeat split; [exact Hpot | exact Heff |].
  unfold van_net. rewrite Heff.
  rewrite Q.max_l; lra.
Qed.

Lemma simuleer_zonder_ruimte (kwartieren : list Kwartier) :
  batterij_capaciteit inst / 2 == soc_max inst ->
  Forall niet_negatief kwartieren ->
  Forall (fun r => van_net_kWh r == afname_kWh r /\
                   naar_net_kWh r == injectie_kWh r /\
                   opladen_kWh r == 0 /\ ontladen_kWh r == 0)
         (resultaten (simuleer inst kwartieren)).
Proof.
  intros Hbegin Hkw.
  set (P := fun r => van_net_kWh r == afname_kWh r /\
                     naar_net_kWh r == injectie_kWh r /\
                     opladen_kWh r == 0 /\ ontladen_kWh r == 0).
  cut (batterij_niveau (simuleer inst kwartieren) == soc_max inst /\
       Forall P (resultaten (simuleer inst kwartieren))).
  { intros [_ H]. exact H. }
  unfold simuleer.
  apply (fold_stap_behoudt inst
           (fun st => batterij_niveau st == soc_max inst /\ Forall P (resultaten st))).
  - intros st kw Hin [Hniv Hres].
    rewrite Forall_forall in Hkw. destruct (Hkw kw Hin) as [Haf Hinj].
    destruct (laden_zonder_ruimte (batterij_niveau st) kw Hinj Hniv) as [Hopl Hnaar].
    assert (Hniv1 : batterij_niveau st + effectief_opladen inst (batterij_niveau st) kw
                    == soc_max inst) by lra.
    destruct (ontladen_zonder_ruimte _ kw Haf Hniv1) as (Hpot & Heff & Hvan).
    split; simpl.
    + lra.
    + apply Forall_app. split; [exact Hres |].
      constructor; [| constructor].
      unfold P; simpl. repeat split; assumption.
  - split; simpl; [exact Hbegin | constructor].
Qed.
End GeenRuimte.





(** ** Charging comes before discharging *)

Lemma gedeeld_door_900 (x : Q) : x / 900 == x * (1 # 900).
Proof. field. Qed.





(** ** A product of efficiency and delay factor that is zero *)

(** C2, as the specification states it, fails: with a discharge efficiency
    of 0 the product is 0, yet the discharging phase of the first step
    takes 0.625 kWh out of the battery (the level goes from 2.5 to
    1.875 kWh) while nothing is delivered. *)
Lemma nul_product_ontlaadt :
  eff_ontladen inst_nul_rendement * vertraging_ontladen inst_nul_rendement == 0 /\
  potentieel_ontladen inst_nul_rendement
    (batterij_niveau (begin inst_nul_rendement)) kw_beide == 0.625 /\
  ~ potentieel_ontladen inst_nul_rendement
      (batterij_niveau (begin inst_nul_rendement)) kw_beide == 0 /\
  exists r,
    resultaten (simuleer inst_nul_rendement [kw_beide]) = [r] /\
    batterij_niveau_kWh r == 1.875 /\
    ontladen_kWh r == 0.
Proof.
  split; [reken |]. split; [reken |]. split; [reken |].
  eexists. split; [reflexivity |]. split; reken.
Qed.

(** C2, amended.  When the product of efficiency and delay factor is zero,
    each phase still divides by the product plus 1e-9, which is 1e-9 and
    not zero.  For a non-negative export, a non-negative
    [max_energie_per_kwartier] and a level of at most [soc_max], the
    charging phase charges nothing and leaves the whole export for the
    grid.  The discharging phase takes
    min(import / 1e-9, max_energie_per_kwartier, level - soc_min) out of
    the battery, delivers nothing, and leaves the import as it is. *)
Theorem nul_product (inst : Instellingen) (niveau : Q) (kw : Kwartier) :
  0 <= injectie kw ->
  0 <= max_energie_per_kwartier inst ->
  niveau <= soc_max inst ->
  (eff_laden inst * vertraging_laden inst == 0 ->
     eff_laden inst * vertraging_laden inst + 0.000000001 == 0.000000001 /\
     effectief_opladen inst niveau kw == 0 /\
     naar_net inst niveau kw == injectie kw) /\
  (eff_ontladen inst * vertraging_ontladen inst == 0 ->
     eff_ontladen inst * vertraging_ontladen inst + 0.000000001 == 0.000000001 /\
     potentieel_ontladen inst niveau kw
       == min3 (afname kw / 0.000000001)
               (max_energie_per_kwartier inst)
               (niveau - soc_min inst) /\
     effectief_ontladen inst niveau kw == 0 /\
     van_net inst niveau kw == Qmax (afname kw) 0).
Proof.
  intros Hinj Hmax Hniv. split; intros Hnul.
  - assert (Hopl : effectief_opladen inst niveau kw == 0).
    { unfold effectief_opladen, potentieel_opladen, min3.
      rewrite <- Qmult_assoc, Hnul, Qmult_0_r.
      rewrite (Q.min_l 0 (max_energie_per_kwartier inst)) by exact Hmax.
      apply Q.min_l. lra. }
    split; [rewrite Hnul; reflexivity |].
    split; [exact Hopl |].
    unfold naar_net. rewrite Hopl.
    unfold Qdiv. rewrite Qmult_0_l.
    rewrite Q.max_l; lra.
  - assert (Heff : effectief_ontladen inst niveau kw == 0).
    { unfold effectief_ontladen.
      rewrite <- Qmult_assoc, Hnul. apply Qmult_0_r. }
    split; [rewrite Hnul; reflexivity |].
    split.
    + unfold potentieel_ontladen, min3. rewrite Hnul, Qplus_0_l. reflexivity.
    + split; [exact Heff |].
      unfold van_net. rewrite Heff.
      apply Q.max_compat; [ring | reflexivity].
Qed.

Lemma nul_product_witness :
  0 <= injectie kw_beide /\
  0 <= max_energie_per_kwartier inst_nul_rendement /\
  batterij_niveau (begin inst_nul_rendement) <= soc_max inst_nul_rendement /\
  eff_laden inst_nul_rendement * vertraging_laden inst_nul_rendement == 0 /\
  eff_ontladen inst_nul_rendement * vertraging_ontladen inst_nul_rendement == 0 /\
  naar_net inst_nul_rendement (batterij_niveau (begin inst_nul_rendement)) kw_beide
    == injectie kw_beide /\
  effectief_ontladen inst_nul_rendement
    (batterij_niveau (begin inst_nul_rendement)) kw_beide == 0.
Proof.
  assert (H1 : 0 <= injectie kw_beide) by (vm_compute; discriminate).
  assert (H2 : 0 <= max_energie_per_kwartier inst_nul_rendement)
    by (vm_compute; discriminate).
  assert (H3 : batterij_niveau (begin inst_nul_rendement)
               <= soc_max inst_nul_rendement) by (vm_compute; discriminate).
  assert (H4 : eff_laden inst_nul_rendement
               * vertraging_laden inst_nul_rendement == 0)
    by (vm_compute; reflexivity).
  assert (H5 : eff_ontladen inst_nul_rendement
               * vertraging_ontladen inst_nul_rendement == 0)
    by (vm_compute; reflexivity).
  repeat (split; [assumption |]).
  destruct (nul_product inst_nul_rendement
              (batterij_niveau (begin inst_nul_rendement)) kw_beide H1 H2 H3)
    as [Hl Ho].
  destruct (Hl H4) as (_ & _ & Hnaar).
  destruct (Ho H5) as (_ & _ & Heff & _).
  split; assumption.
Defined.

(** ** Full and empty percentages *)

Lemma deel_gedefinieerd (x y : Q) : ~ y == 0 -> deel x y = Some (x / y).
Proof.
  intros Hy. unfold deel.
  destruct (Qeq_bool y 0) eqn:E; [| reflexivity].
  apply Qeq_bool_eq in E. contradiction.
Qed.

Lemma aantal_bereik (p : Resultaat -> bool) (res : list Resultaat) :
  0 <= aantal p res /\ aantal p res <= inject_Z (Z.of_nat (List.length res)).
Proof.
  unfold aantal. split.
  - apply inject_Z_nonneg. lia.
  - rewrite <- Zle_Qle. apply Nat2Z.inj_le. apply filter_length_le.
Qed.

Lemma tijd_totaal_pos (res : list Resultaat) :
  res <> [] -> 0 < tijd_totaal_uren res.
Proof.
  intros Hres. unfold tijd_totaal_uren, kwartier_uur.
  assert (1 <= inject_Z (Z.of_nat (List.length res))).
  { change 1 with (inject_Z 1). rewrite <- Zle_Qle.
    destruct res; [contradiction | simpl; lia]. }
  lra.
Qed.

Lemma procent_bereik (a n : Q) :
  0 <= a -> a <= n -> 0 < n * kwartier_uur ->
  exists p, deel (100 * (a * kwartier_uur)) (n * kwartier_uur) = Some p /\
            0 <= p /\ p <= 100.
Proof.
  intros Ha Han Hn. unfold kwartier_uur in *.
  eexists. split; [apply deel_gedefinieerd; lra |].
  split.
  - apply quotient_nonneg; lra.
  - apply Qle_shift_div_r; lra.
Qed.

(** With at least one row both percentages exist and lie in [0, 100],
    whatever the SoC bounds are. *)
Lemma pct_bereik (inst : Instellingen) (res : list Resultaat) :
  res <> [] ->
  exists pv pl,
    pct_vol inst res = Some pv /\ pct_leeg inst res = Some pl /\
    (0 <= pv /\ pv <= 100) /\ (0 <= pl /\ pl <= 100).
Proof.
  intros Hres.
  pose proof (tijd_totaal_pos res Hres) as Htot. unfold tijd_totaal_uren in Htot.
  destruct (aantal_bereik (is_vol inst) res) as [Hv0 Hv1].
  destruct (aantal_bereik (is_leeg inst) res) as [Hl0 Hl1].
  destruct (procent_bereik _ _ Hv0 Hv1 Htot) as (pv & Hpv & Hpv0 & Hpv1).
  destruct (procent_bereik _ _ Hl0 Hl1 Htot) as (pl & Hpl & Hpl0 & Hpl1).
  exists pv, pl. repeat split; assumption.
Qed.

(** C9 fails on a run without buckets: an upload with the four columns and
    no rows gives an empty [df_kwartier] and an empty [resultaten]; the
    total time is 0, neither percentage is a number, and the run ends in an
    exception instead of a summary. *)
Theorem pct_zonder_kwartieren (inst : Instellingen) :
  df_kwartier bestand_zonder_rijen = [] /\
  resultaten (simuleer inst []) = [] /\
  tijd_totaal_uren (resultaten (simuleer inst [])) == 0 /\
  pct_vol inst (resultaten (simuleer inst [])) = None /\
  pct_leeg inst (resultaten (simuleer inst [])) = None /\
  app_py inst (Some bestand_zonder_rijen) = Uitzondering.
Proof.
  repeat split; reflexivity.
Qed.

(** ** What is checked before the simulation *)




(** ** Monthly savings add up to the total

    Sums. *)

Lemma som_app (l1 l2 : list Q) : som (l1 ++ l2) == som l1 + som l2.
Proof.
  induction l1 as [| x l1 IH]; simpl.
  - ring.
  - rewrite IH. ring.
Qed.


(** Groups. *)

Lemma tel_bij_som (k : Z) (v : Q) (g : list (Z * Q)) :
  som (map snd (tel_bij Z.compare Qplus k v g)) == som (map snd g) + v.
Proof.
  induction g as [| [k' v'] g IH]; simpl.
  - ring.
  - destruct (Z.compare k k'); simpl.
    + ring.
    + ring.
    + rewrite IH. ring.
Qed.

Lemma tel_bij_labels (k : Z) (v : Q) (g : list (Z * Q)) :
  map fst (tel_bij Z.compare Qplus k v g) = voeg_label k (map fst g).
Proof.
  induction g as [| [k' v'] g IH]; simpl.
  - reflexivity.
  - destruct (Z.compare k k'); simpl; [reflexivity | reflexivity |].
    rewrite IH. reflexivity.
Qed.

Lemma groupby_sum_vanaf (l : list (Z * Q)) :
  forall g,
    let g' := fold_left (fun g kv => tel_bij Z.compare Qplus (fst kv) (snd kv) g) l g in
    som (map snd g') == som (map snd g) + som (map snd l) /\
    map fst g' = fold_left (fun acc k => voeg_label k acc) (map fst l) (map fst g).
Proof.
  induction l as [| [k v] l IH]; intros g; simpl.
  - split; [ring | reflexivity].
  - destruct (IH (tel_bij Z.compare Qplus k v g)) as [Hs Hl]. split.
    + rewrite Hs, tel_bij_som. ring.
    + rewrite Hl, tel_bij_labels. reflexivity.
Qed.

Lemma groupby_sum_som (l : list (Z * Q)) :
  som (map snd (groupby_sum Z.compare Qplus l)) == som (map snd l).
Proof.
  destruct (groupby_sum_vanaf l []) as [Hs _]. unfold groupby_sum.
  rewrite Hs. simpl. ring.
Qed.

Lemma groupby_sum_labels (l : list (Z * Q)) :
  map fst (groupby_sum Z.compare Qplus l) = labels (map fst l).
Proof.
  destruct (groupby_sum_vanaf l []) as [_ Hl]. exact Hl.
Qed.

(** Labels are strictly increasing. *)

Lemma voeg_label_in (k x : Z) (ks : list Z) :
  In x (voeg_label k ks) -> x = k \/ In x ks.
Proof.
  induction ks as [| k' ks IH]; simpl.
  - intros [H | []]. left. symmetry. exact H.
  - destruct (Z.compare k k'); simpl.
    + intros H. right. exact H.
    + intros [H | H]; [left; symmetry; exact H | right; exact H].
    + intros [H | H]; [right; left; exact H |].
      destruct (IH H) as [E | E]; [left; exact E | right; right; exact E].
Qed.

Lemma voeg_label_gesorteerd (k : Z) (ks : list Z) :
  StronglySorted Z.lt ks -> StronglySorted Z.lt (voeg_label k ks).
Proof.
  induction ks as [| k' ks IH]; intros Hs; simpl.
  - repeat constructor.
  - inversion Hs as [| ? ? Hs' Hall]; subst.
    destruct (Z.compare_spec k k') as [E | L | G].
    + exact Hs.
    + constructor; [exact Hs |].
      constructor; [exact L |].
      eapply Forall_impl; [| exact Hall]. intros x Hx. simpl in Hx. lia.
    + constructor; [apply IH; exact Hs' |].
      rewrite Forall_forall. intros x Hx.
      destruct (voeg_label_in _ _ _ Hx) as [E | Hin]; [subst; exact G |].
      rewrite Forall_forall in Hall. apply Hall. exact Hin.
Qed.

Lemma voeg_label_aanwezig (k : Z) (ks : list Z) :
  StronglySorted Z.lt ks -> In k ks -> voeg_label k ks = ks.
Proof.
  induction ks as [| k' ks IH]; intros Hs Hin; simpl.
  - destruct Hin.
  - inversion Hs as [| ? ? Hs' Hall]; subst.
    destruct (Z.compare_spec k k') as [E | L | G].
    + reflexivity.
    + exfalso. destruct Hin as [E | Hin]; [lia |].
      rewrite Forall_forall in Hall. specialize (Hall _ Hin). lia.
    + destruct Hin as [E | Hin]; [lia |].
      rewrite (IH Hs' Hin). reflexivity.
Qed.

Lemma labels_vanaf_gesorteerd (l ks : list Z) :
  StronglySorted Z.lt ks ->
  StronglySorted Z.lt (fold_left (fun acc k => voeg_label k acc) l ks).
Proof.
  revert ks. induction l as [| k l IH]; intros ks Hs; simpl.
  - exact Hs.
  - apply IH. apply voeg_label_gesorteerd. exact Hs.
Qed.

Lemma labels_gesorteerd (l : list Z) : StronglySorted Z.lt (labels l).
Proof. apply labels_vanaf_gesorteerd. constructor. Qed.

Lemma unie_met_zichzelf (l ks : list Z) :
  StronglySorted Z.lt ks -> incl l ks ->
  fold_left (fun acc k => voeg_label k acc) l ks = ks.
Proof.
  intros Hs. induction l as [| k l IH]; intros Hincl; simpl.
  - reflexivity.
  - rewrite voeg_label_aanwezig; [| exact Hs | apply Hincl; left; reflexivity].
    apply IH. intros x Hx. apply Hincl. right. exact Hx.
Qed.

Lemma gesorteerd_NoDup (ks : list Z) : StronglySorted Z.lt ks -> NoDup ks.
Proof.
  induction 1 as [| k ks Hs IH Hall].
  - constructor.
  - constructor; [| exact IH].
    intros Hin. rewrite Forall_forall in Hall. specialize (Hall _ Hin). lia.
Qed.

(** Series on the same labels. *)

Lemma reeks_zoek_tabel (ks : list Z) (h : Z -> Q) (k : Z) :
  In k ks -> reeks_zoek k (reeks_van (tabel ks h)) = Some (h k).
Proof.
  unfold reeks_zoek, reeks_van, tabel.
  induction ks as [| k' ks IH]; intros Hin; simpl.
  - destruct Hin.
  - destruct (Z.eqb_spec k' k) as [E | N]; simpl.
    + subst. reflexivity.
    + destruct Hin as [E | Hin]; [contradiction |]. apply IH. exact Hin.
Qed.

Lemma tabel_labels (ks : list Z) (h : Z -> Q) : map fst (tabel ks h) = ks.
Proof.
  unfold tabel. rewrite map_map. simpl. apply map_id.
Qed.

Lemma reeks_van_labels (g : list (Z * Q)) : map fst (reeks_van g) = map fst g.
Proof. unfold reeks_van. rewrite map_map. reflexivity. Qed.

Lemma waarde_tabel (g : list (Z * Q)) :
  NoDup (map fst g) -> g = tabel (map fst g) (waarde g).
Proof.
  unfold tabel.
  induction g as [| [k v] g IH]; intros Hnd; simpl.
  - reflexivity.
  - inversion Hnd as [| ? ? Hnotin Hnd']; subst.
    unfold waarde at 1. simpl. rewrite Z.eqb_refl. simpl. f_equal.
    rewrite (IH Hnd') at 1.
    apply map_ext_in. intros k' Hin. f_equal.
    unfold waarde. simpl.
    destruct (Z.eqb_spec k k') as [E | N]; [subst; contradiction | reflexivity].
Qed.

Lemma reeks_op_tabel (f : Q -> Q -> Q) (ks : list Z) (h1 h2 : Z -> Q) :
  StronglySorted Z.lt ks ->
  reeks_op f (reeks_van (tabel ks h1)) (reeks_van (tabel ks h2))
  = reeks_van (tabel ks (fun k => f (h1 k) (h2 k))).
Proof.
  intros Hs. unfold reeks_op, index_unie.
  rewrite !reeks_van_labels, !tabel_labels.
  rewrite unie_met_zichzelf; [| exact Hs | apply incl_refl].
  unfold reeks_van at 3. unfold tabel at 3. rewrite map_map. simpl.
  apply map_ext_in. intros k Hin.
  rewrite !reeks_zoek_tabel by exact Hin. reflexivity.
Qed.

Lemma reeks_maal_tabel (ks : list Z) (h : Z -> Q) (c : Q) :
  reeks_maal (reeks_van (tabel ks h)) c = reeks_van (tabel ks (fun k => h k * c)).
Proof.
  unfold reeks_maal, reeks_van, tabel. rewrite !map_map. reflexivity.
Qed.


Lemma tabel_som (g : list (Z * Q)) :
  NoDup (map fst g) -> som (map (waarde g) (map fst g)) == som (map snd g).
Proof.
  intros Hnd.
  pose proof (f_equal (map snd) (waarde_tabel g Hnd)) as E.
  unfold tabel in E. rewrite map_map in E. simpl in E.
  rewrite E. reflexivity.
Qed.

(** The sum of one column per group, as a table on the labels of the key
    column, and what its values add up to. *)
Lemma groupby_sum_tabel {A : Type} (sleutel : A -> Z) (kolom : A -> Q) (l : list A) :
  let g := groupby_sum Z.compare Qplus (map (fun a => (sleutel a, kolom a)) l) in
  g = tabel (labels (map sleutel l)) (waarde g) /\
  som (map (waarde g) (labels (map sleutel l))) == som (map kolom l).
Proof.
  intros g.
  assert (Hl : map fst g = labels (map sleutel l)).
  { unfold g. rewrite groupby_sum_labels, map_map. reflexivity. }
  assert (Hnd : NoDup (map fst g)).
  { rewrite Hl. apply gesorteerd_NoDup, labels_gesorteerd. }
  split.
  - rewrite <- Hl. apply waarde_tabel. exact Hnd.
  - rewrite <- Hl, tabel_som by exact Hnd.
    unfold g. rewrite groupby_sum_som, map_map. reflexivity.
Qed.

(** The totals of the loop are the sums of the columns. *)

Lemma som_map_snoc {A : Type} (f : A -> Q) (l : list A) (a : A) :
  som (map f (l ++ [a])) == som (map f l) + f a.
Proof. rewrite map_app, som_app. simpl. ring. Qed.

Lemma simuleer_totalen (inst : Instellingen) (kwartieren : list Kwartier) :
  totalen_kloppen (simuleer inst kwartieren).
Proof.
  unfold simuleer. apply fold_stap_behoudt.
  - intros st kw _ (H1 & H2 & H3 & H4).
    unfold totalen_kloppen; simpl.
    rewrite !som_map_snoc; simpl.
    rewrite H1, H2, H3, H4. repeat split; reflexivity.
  - unfold totalen_kloppen; simpl. repeat split; reflexivity.
Qed.

Lemma simuleer_kolommen_vanaf (inst : Instellingen) (kwartieren : list Kwartier) :
  forall st,
    let res := resultaten (fold_left (stap inst) kwartieren st) in
    map tijd res = map tijd (resultaten st) ++ map datetime kwartieren /\
    map afname_kWh res = map afname_kWh (resultaten st) ++ map afname kwartieren /\
    map injectie_kWh res = map injectie_kWh (resultaten st) ++ map injectie kwartieren.
Proof.
  induction kwartieren as [| kw rest IH]; intros st; simpl.
  - rewrite !app_nil_r. repeat split; reflexivity.
  - destruct (IH (stap inst st kw)) as (H1 & H2 & H3).
    rewrite H1, H2, H3. simpl. rewrite !map_app. simpl.
    rewrite <- !app_assoc. simpl. repeat split; reflexivity.
Qed.

Lemma simuleer_kolommen (inst : Instellingen) (kwartieren : list Kwartier) :
  let res := resultaten (simuleer inst kwartieren) in
  map tijd res = map datetime kwartieren /\
  map afname_kWh res = map afname kwartieren /\
  map injectie_kWh res = map injectie kwartieren.
Proof.
  apply (simuleer_kolommen_vanaf inst kwartieren (begin inst)).
Qed.


(** * Further properties of the run *)

(** ** The table follows the buckets *)

(** X1. The table of a run has one row for every bucket, in the order of
    the buckets, and every row carries the timestamp, the import and the
    export of its bucket unchanged. *)
Theorem spoor_volgt_invoer (inst : Instellingen) (kwartieren : list Kwartier) :
  let res := resultaten (simuleer inst kwartieren) in
  List.length res = List.length kwartieren /\
  map tijd res = map datetime kwartieren /\
  map afname_kWh res = map afname kwartieren /\
  map injectie_kWh res = map injectie kwartieren.
Proof.
  intros res. split.
  - unfold res, simuleer. rewrite resultaten_lengte. reflexivity.
  - apply simuleer_kolommen.
Qed.

Lemma op_batterij_som (inst : Instellingen) (kwartieren : list Kwartier) :
  energie_op_batterij (simuleer inst kwartieren)
  == som (map opladen_kWh (resultaten (simuleer inst kwartieren))).
Proof.
  unfold simuleer.
  apply (fold_stap_behoudt inst
           (fun st => energie_op_batterij st == som (map opladen_kWh (resultaten st)))).
  - intros st kw _ H. simpl. rewrite som_map_snoc. simpl. rewrite H. reflexivity.
  - reflexivity.
Qed.


Lemma scenario_beide_niet_negatief : Forall niet_negatief [kw_beide].
Proof.
  constructor; [| constructor].
  split; unfold Qle; simpl; lia.
Defined.

(** ** The level of the battery and the table *)


Lemma resultaten_niet_leeg (inst : Instellingen) (kwartieren : list Kwartier) :
  kwartieren <> [] -> resultaten (simuleer inst kwartieren) <> [].
Proof.
  intros Hne E. apply (f_equal (@List.length _)) in E.
  unfold simuleer in E. rewrite resultaten_lengte in E. simpl in E.
  destruct kwartieren; [contradiction | simpl in E; lia].
Qed.

(** X6. In a run over at least one bucket, the final level of the battery
    (the "Eindsituatie batterij" of the summary) is the level in the last
    row of the table. *)
Theorem eindsituatie_is_laatste_rij (inst : Instellingen) (kwartieren : list Kwartier)
    (d : Resultaat) :
  kwartieren <> [] ->
  batterij_niveau_kWh (last (resultaten (simuleer inst kwartieren)) d)
  = batterij_niveau (simuleer inst kwartieren).
Proof.
  intros Hne.
  assert (H : resultaten (simuleer inst kwartieren) = [] \/
              batterij_niveau_kWh (last (resultaten (simuleer inst kwartieren)) d)
              = batterij_niveau (simuleer inst kwartieren)).
  { unfold simuleer.
    apply (fold_stap_behoudt inst
             (fun st => resultaten st = [] \/
                        batterij_niveau_kWh (last (resultaten st) d)
                        = batterij_niveau st)).
    - intros st kw _ _. right. simpl. rewrite last_last. reflexivity.
    - left. reflexivity. }
  destruct H as [E | E]; [| exact E].
  exfalso. revert E. apply resultaten_niet_leeg. exact Hne.
Qed.

Lemma eindsituatie_is_laatste_rij_witness :
  [kw_scenario; kw_beide] <> [] /\
  forall d,
    batterij_niveau_kWh
      (last (resultaten (simuleer inst_scenario [kw_scenario; kw_beide])) d)
    = batterij_niveau (simuleer inst_scenario [kw_scenario; kw_beide]).
Proof.
  assert (H : [kw_scenario; kw_beide] <> []) by discriminate.
  split; [exact H |].
  intros d.
  exact (eindsituatie_is_laatste_rij inst_scenario [kw_scenario; kw_beide] d H).
Defined.

(** ** Totals with and without the battery *)

Lemma som_le {A : Type} (f g : A -> Q) (l : list A) :
  Forall (fun a => f a <= g a) l -> som (map f l) <= som (map g l).
Proof.
  induction 1 as [| a l Ha _ IH]; simpl; lra.
Qed.

Lemma som_nonneg {A : Type} (f : A -> Q) (l : list A) :
  Forall (fun a => 0 <= f a) l -> 0 <= som (map f l).
Proof.
  induction 1 as [| a l Ha _ IH]; simpl; lra.
Qed.

(** X7. In a run within the widget ranges on buckets with non-negative
    import and export, the total grid import and the total grid export with
    the battery are non-negative and at most the totals without the
    battery, and the total charged energy is non-negative. *)
Theorem totalen_niet_slechter (inst : Instellingen) (kwartieren : list Kwartier) :
  binnen_bereik inst ->
  Forall niet_negatief kwartieren ->
  let eind := simuleer inst kwartieren in
  (0 <= energie_van_net eind /\
   energie_van_net eind <= energie_zonder_batterij_van_net eind) /\
  (0 <= energie_naar_net eind /\
   energie_naar_net eind <= energie_zonder_batterij_naar_net eind) /\
  0 <= energie_op_batterij eind.
Proof.
  intros Hinst Hkw eind.
  apply binnen_bereik_bruikbaar in Hinst.
  destruct (simuleer_in_orde inst kwartieren Hinst Hkw) as [_ Hres].
  destruct (simuleer_totalen inst kwartieren) as (T1 & T2 & T3 & T4).
  pose proof (op_batterij_som inst kwartieren) as T0.
  fold eind in Hres, T0, T1, T2, T3, T4.
  rewrite T0, T1, T2, T3, T4.
  repeat split.
  - apply som_nonneg. eapply Forall_impl; [| exact Hres]. intros r H. apply H.
  - apply som_le. eapply Forall_impl; [| exact Hres]. intros r H. apply H.
  - apply som_nonneg. eapply Forall_impl; [| exact Hres]. intros r H. apply H.
  - apply som_le. eapply Forall_impl; [| exact Hres]. intros r H. apply H.
  - apply som_nonneg. eapply Forall_impl; [| exact Hres]. intros r H. apply H.
Qed.

Lemma totalen_niet_slechter_witness :
  binnen_bereik inst_scenario /\
  Forall niet_negatief [kw_beide] /\
  energie_van_net (simuleer inst_scenario [kw_beide])
  <= energie_zonder_batterij_van_net (simuleer inst_scenario [kw_beide]) /\
  energie_naar_net (simuleer inst_scenario [kw_beide])
  <= energie_zonder_batterij_naar_net (simuleer inst_scenario [kw_beide]).
Proof.
  split; [exact scenario_binnen_bereik |].
  split; [exact scenario_beide_niet_negatief |].
  destruct (totalen_niet_slechter inst_scenario [kw_beide]
              scenario_binnen_bereik scenario_beide_niet_negatief)
    as ((_ & H1) & (_ & H2) & _).
  split; assumption.
Defined.

(** ** Buckets that leave the battery alone *)

Lemma min3_nul (b c : Q) : 0 <= b -> 0 <= c -> min3 0 b c == 0.
Proof.
  intros Hb Hc. unfold min3.
  rewrite (Q.min_l 0 b) by exact Hb. apply Q.min_l. exact Hc.
Qed.

(** X9. A bucket without import and without export, met at a level
    between [soc_min] and [soc_max] with a non-negative inverter power,
    changes nothing: the level stays, and its row has no charge, no
    discharge and no grid flow. *)
Theorem kwartier_zonder_energie (inst : Instellingen) (st : Toestand) (kw : Kwartier) :
  0 <= max_vermogen_kW inst ->
  soc_min inst <= batterij_niveau st ->
  batterij_niveau st <= soc_max inst ->
  afname kw == 0 ->
  injectie kw == 0 ->
  batterij_niveau (stap inst st kw) == batterij_niveau st /\
  exists r,
    resultaten (stap inst st kw) = resultaten st ++ [r] /\
    opladen_kWh r == 0 /\ ontladen_kWh r == 0 /\
    van_net_kWh r == 0 /\ naar_net_kWh r == 0.
Proof.
  intros Hp Hlo Hhi Haf Hinj.
  assert (Hmax : 0 <= max_energie_per_kwartier inst).
  { unfold max_energie_per_kwartier, kwartier_uur. lra. }
  assert (Hopl : effectief_opladen inst (batterij_niveau st) kw == 0).
  { unfold effectief_opladen, potentieel_opladen, min3.
    rewrite Hinj, !Qmult_0_l. apply min3_nul; lra. }
  assert (Hpot : potentieel_ontladen inst
                   (batterij_niveau st + effectief_opladen inst (batterij_niveau st) kw) kw
                 == 0).
  { unfold potentieel_ontladen, min3. rewrite Haf, Hopl.
    unfold Qdiv at 1. rewrite Qmult_0_l. apply min3_nul; lra. }
  assert (Heff : effectief_ontladen inst
                   (batterij_niveau st + effectief_opladen inst (batterij_niveau st) kw) kw
                 == 0).
  { unfold effectief_ontladen. rewrite Hpot. ring. }
  split; [simpl; lra |].
  eexists. split; [reflexivity |]. simpl.
  split; [exact Hopl |]. split; [exact Heff |]. split.
  - unfold van_net. rewrite Heff, Haf. reflexivity.
  - unfold naar_net. rewrite Hopl, Hinj. reflexivity.
Qed.

Lemma kwartier_zonder_energie_witness :
  0 <= max_vermogen_kW inst_scenario /\
  soc_min inst_scenario <= batterij_niveau (begin inst_scenario) /\
  batterij_niveau (begin inst_scenario) <= soc_max inst_scenario /\
  afname kw_nul == 0 /\
  injectie kw_nul == 0 /\
  batterij_niveau (stap inst_scenario (begin inst_scenario) kw_nul)
  == batterij_niveau (begin inst_scenario).
Proof.
  assert (H1 : 0 <= max_vermogen_kW inst_scenario) by (vm_compute; discriminate).
  assert (H2 : soc_min inst_scenario <= batterij_niveau (begin inst_scenario))
    by (vm_compute; discriminate).
  assert (H3 : batterij_niveau (begin inst_scenario) <= soc_max inst_scenario)
    by (vm_compute; discriminate).
  assert (H4 : afname kw_nul == 0) by reflexivity.
  assert (H5 : injectie kw_nul == 0) by reflexivity.
  repeat (split; [assumption |]).
  exact (proj1 (kwartier_zonder_energie inst_scenario (begin inst_scenario) kw_nul
                  H1 H2 H3 H4 H5)).
Defined.

Lemma half_binnen_bereik : binnen_bereik inst_half.
Proof.
  unfold binnen_bereik, inst_half; simpl.
  repeat split; try lia; unfold Qle; simpl; lia.
Defined.

(** X10. Within the widget ranges, a battery that is at [soc_max] charges
    nothing from a bucket with non-negative export: the whole export goes to
    the grid. *)
Theorem volle_batterij (inst : Instellingen) (st : Toestand) (kw : Kwartier) :
  binnen_bereik inst ->
  batterij_niveau st == soc_max inst ->
  0 <= injectie kw ->
  exists r,
    resultaten (stap inst st kw) = resultaten st ++ [r] /\
    opladen_kWh r == 0 /\ naar_net_kWh r == injectie kw.
Proof.
  intros Hinst Hvol Hinj.
  apply binnen_bereik_bruikbaar in Hinst.
  destruct (laden_zonder_ruimte inst Hinst (batterij_niveau st) kw Hinj Hvol)
    as [Hopl Hnaar].
  eexists. split; [reflexivity |]. simpl. split; assumption.
Qed.

Lemma volle_batterij_witness :
  binnen_bereik inst_half /\
  batterij_niveau (begin inst_half) == soc_max inst_half /\
  0 <= injectie kw_scenario /\
  exists r,
    resultaten (stap inst_half (begin inst_half) kw_scenario) = [r] /\
    opladen_kWh r == 0 /\ naar_net_kWh r == injectie kw_scenario.
Proof.
  assert (H1 : batterij_niveau (begin inst_half) == soc_max inst_half)
    by (vm_compute; reflexivity).
  assert (H2 : 0 <= injectie kw_scenario) by (vm_compute; discriminate).
  split; [exact half_binnen_bereik |].
  split; [exact H1 |]. split; [exact H2 |].
  exact (volle_batterij inst_half (begin inst_half) kw_scenario
           half_binnen_bereik H1 H2).
Defined.

(** X11. Within the widget ranges, a battery that is at [soc_min] and meets
    a bucket with import and no export delivers nothing: the level stays at
    [soc_min] and the whole import comes from the grid. *)
Theorem lege_batterij (inst : Instellingen) (st : Toestand) (kw : Kwartier) :
  binnen_bereik inst ->
  batterij_niveau st == soc_min inst ->
  injectie kw == 0 ->
  0 <= afname kw ->
  batterij_niveau (stap inst st kw) == soc_min inst /\
  exists r,
    resultaten (stap inst st kw) = resultaten st ++ [r] /\
    opladen_kWh r == 0 /\ ontladen_kWh r == 0 /\ van_net_kWh r == afname kw.
Proof.
  intros Hinst Hleeg Hinj Haf.
  apply binnen_bereik_bruikbaar in Hinst.
  pose proof Hinst as [Hmax Hel Heo Hb1 Hb2].
  assert (Hopl : effectief_opladen inst (batterij_niveau st) kw == 0).
  { unfold effectief_opladen, potentieel_opladen, min3.
    rewrite Hinj, !Qmult_0_l. apply min3_nul; lra. }
  set (niveau1 := batterij_niveau st + effectief_opladen inst (batterij_niveau st) kw).
  assert (Hpot : potentieel_ontladen inst niveau1 kw == 0).
  { apply Qle_antisym.
    - pose proof (min3_le_3
                    (afname kw / (eff_ontladen inst * vertraging_ontladen inst + 0.000000001))
                    (max_energie_per_kwartier inst) (niveau1 - soc_min inst)) as H3.
      fold (potentieel_ontladen inst niveau1 kw) in H3. unfold niveau1 in *. lra.
    - apply potentieel_ontladen_nonneg; [exact Hinst | exact Haf |].
      unfold niveau1. lra. }
  assert (Heff : effectief_ontladen inst niveau1 kw == 0).
  { unfold effectief_ontladen. rewrite Hpot. ring. }
  split; [simpl; fold niveau1; unfold niveau1 in *; lra |].
  eexists. split; [reflexivity |]. simpl. fold niveau1.
  split; [exact Hopl |]. split; [exact Heff |].
  unfold van_net. rewrite Heff. rewrite Q.max_l; lra.
Qed.

Lemma lege_batterij_witness :
  binnen_bereik inst_half /\
  batterij_niveau (begin inst_half) == soc_min inst_half /\
  injectie {| datetime := t0; afname := 1; injectie := 0 |} == 0 /\
  0 <= afname {| datetime := t0; afname := 1; injectie := 0 |} /\
  batterij_niveau
    (stap inst_half (begin inst_half) {| datetime := t0; afname := 1; injectie := 0 |})
  == soc_min inst_half.
Proof.
  assert (H1 : batterij_niveau (begin inst_half) == soc_min inst_half)
    by (vm_compute; reflexivity).
  assert (H2 : injectie {| datetime := t0; afname := 1; injectie := 0 |} == 0)
    by reflexivity.
  assert (H3 : 0 <= afname {| datetime := t0; afname := 1; injectie := 0 |})
    by (vm_compute; discriminate).
  split; [exact half_binnen_bereik |].
  repeat (split; [assumption |]).
  exact (proj1 (lege_batterij inst_half (begin inst_half) _
                  half_binnen_bereik H1 H2 H3)).
Defined.



(** ** The divisions of the loop *)

Lemma klem_gevallen (x : Q) :
  Qmax 0 (Qmin 1 x) == 0 \/ Qmax 0 (Qmin 1 x) == 1 \/ Qmax 0 (Qmin 1 x) == x.
Proof.
  destruct (Q.max_spec 0 (Qmin 1 x)) as [[_ E] | [_ E]]; [| left; exact E].
  destruct (Q.min_spec 1 x) as [[_ E'] | [_ E']].
  - right. left. rewrite E. exact E'.
  - right. right. rewrite E. exact E'.
Qed.

(** An integer number of percent times a delay factor of an integer number
    of seconds is never -1e-9. *)
Lemma deler_geheel (z r : Z) :
  ~ inject_Z z / 100 * Qmax 0 (Qmin 1 (1 - inject_Z r / 900)) + 0.000000001 == 0.
Proof.
  intros H.
  rewrite gedeeld_door_100 in H.
  destruct (klem_gevallen (1 - inject_Z r / 900)) as [E | [E | E]];
    rewrite E in H; clear E.
  - lra.
  - assert (Hz : inject_Z (z * 100000000000) == inject_Z (-10000)).
    { rewrite inject_Z_mult.
      change (inject_Z 100000000000) with 100000000000.
      change (inject_Z (-10000)) with (-10000). lra. }
    rewrite inject_Z_injective in Hz. lia.
  - rewrite gedeeld_door_900 in H.
    assert (Hz : inject_Z (z * (900 - r) * 1000000000) == inject_Z (-90000)).
    { rewrite !inject_Z_mult. unfold Z.sub. rewrite inject_Z_plus, inject_Z_opp.
      change (inject_Z 1000000000) with 1000000000.
      change (inject_Z 900) with 900.
      change (inject_Z (-90000)) with (-90000). lra. }
    rewrite inject_Z_injective in Hz. lia.
Qed.

(** X13. Whatever the settings are, also outside the widget ranges, the
    two divisors of the loop (efficiency times delay factor plus 1e-9) are
    not zero: the loop never divides by zero. *)
Theorem delers_nooit_nul (inst : Instellingen) :
  ~ eff_laden inst * vertraging_laden inst + 0.000000001 == 0 /\
  ~ eff_ontladen inst * vertraging_ontladen inst + 0.000000001 == 0.
Proof.
  split; apply deler_geheel.
Qed.

(** ** The delay factor *)

Lemma klem_binnen (r : Z) :
  (0 <= r <= 900)%Z ->
  Qmax 0 (Qmin 1 (1 - inject_Z r / 900)) == 1 - inject_Z r / 900.
Proof.
  intros [H0 H1].
  assert (0 <= inject_Z r) by (apply inject_Z_nonneg; exact H0).
  assert (inject_Z r <= 900).
  { change 900 with (inject_Z 900). rewrite <- Zle_Qle. exact H1. }
  rewrite Q.min_r by (rewrite gedeeld_door_900; lra).
  apply Q.max_r. rewrite gedeeld_door_900. lra.
Qed.

(** X14. Within the widget ranges the clamp of the delay factors does
    nothing: each factor is 1 - reaction time / 900 and lies between 14/15
    and 1. *)
Theorem vertraging_binnen_bereik (inst : Instellingen) :
  binnen_bereik inst ->
  (vertraging_laden inst == 1 - inject_Z (reactietijd_laden inst) / 900 /\
   (14 # 15) <= vertraging_laden inst /\ vertraging_laden inst <= 1) /\
  (vertraging_ontladen inst == 1 - inject_Z (reactietijd_ontladen inst) / 900 /\
   (14 # 15) <= vertraging_ontladen inst /\ vertraging_ontladen inst <= 1).
Proof.
  intros (_ & _ & _ & _ & _ & _ & _ & _ & Hl & Ho).
  assert (G : forall r, (0 <= r <= 60)%Z ->
            Qmax 0 (Qmin 1 (1 - inject_Z r / 900)) == 1 - inject_Z r / 900 /\
            (14 # 15) <= Qmax 0 (Qmin 1 (1 - inject_Z r / 900)) /\
            Qmax 0 (Qmin 1 (1 - inject_Z r / 900)) <= 1).
  { intros r Hr.
    assert (E : Qmax 0 (Qmin 1 (1 - inject_Z r / 900)) == 1 - inject_Z r / 900)
      by (apply klem_binnen; lia).
    split; [exact E |].
    assert (0 <= inject_Z r) by (apply inject_Z_nonneg; lia).
    assert (inject_Z r <= 60).
    { change 60 with (inject_Z 60). rewrite <- Zle_Qle. lia. }
    rewrite E, gedeeld_door_900. split; lra. }
  split; [apply (G _ Hl) | apply (G _ Ho)].
Qed.

Lemma vertraging_binnen_bereik_witness :
  binnen_bereik inst_scenario /\
  (14 # 15) <= vertraging_laden inst_scenario /\
  (14 # 15) <= vertraging_ontladen inst_scenario.
Proof.
  split; [exact scenario_binnen_bereik |].
  destruct (vertraging_binnen_bereik inst_scenario scenario_binnen_bereik)
    as ((_ & Hl & _) & (_ & Ho & _)).
  split; assumption.
Defined.

(** ** Full and empty time *)

(** X15. For every run over at least one bucket, whatever the settings,
    the percentage of time full and the percentage of time empty exist and
    lie between 0 and 100. *)
Theorem pct_van_een_run (inst : Instellingen) (kwartieren : list Kwartier) :
  kwartieren <> [] ->
  let res := resultaten (simuleer inst kwartieren) in
  exists pv pl,
    pct_vol inst res = Some pv /\ pct_leeg inst res = Some pl /\
    (0 <= pv /\ pv <= 100) /\ (0 <= pl /\ pl <= 100).
Proof.
  intros Hne res. apply pct_bereik.
  apply resultaten_niet_leeg. exact Hne.
Qed.

Lemma pct_van_een_run_witness :
  [kw_scenario] <> [] /\
  exists pv pl,
    pct_vol inst_scenario (resultaten (simuleer inst_scenario [kw_scenario])) = Some pv /\
    pct_leeg inst_scenario (resultaten (simuleer inst_scenario [kw_scenario])) = Some pl /\
    (0 <= pv /\ pv <= 100) /\ (0 <= pl /\ pl <= 100).
Proof.
  assert (H : [kw_scenario] <> []) by discriminate.
  split; [exact H |].
  exact (pct_van_een_run inst_scenario [kw_scenario] H).
Defined.

Lemma filter_gescheiden {A : Type} (p q : A -> bool) (l : list A) :
  (forall a, p a = true -> q a = true -> False) ->
  (List.length (filter p l) + List.length (filter q l) <= List.length l)%nat.
Proof.
  intros Hpq. induction l as [| a l IH]; simpl.
  - lia.
  - destruct (p a) eqn:Ep, (q a) eqn:Eq; simpl; try lia.
    exfalso. apply (Hpq a); assumption.
Qed.

(** X16. When [soc_max] is more than 2e-6 above [soc_min], no row of a
    table counts both as full and as empty, and the time full and the time
    empty together are at most the total time. *)
Theorem vol_en_leeg_gescheiden (inst : Instellingen) (res : list Resultaat) :
  0.000002 < soc_max inst - soc_min inst ->
  Forall (fun r => is_vol inst r && is_leeg inst r = false) res /\
  tijd_vol_uren inst res + tijd_leeg_uren inst res <= tijd_totaal_uren res.
Proof.
  intros Hruim.
  assert (Hpq : forall r, is_vol inst r = true -> is_leeg inst r = true -> False).
  { intros r Hv Hl. unfold is_vol, is_leeg in *.
    apply Qle_bool_iff in Hv. apply Qle_bool_iff in Hl. lra. }
  split.
  - rewrite Forall_forall. intros r _.
    destruct (is_vol inst r) eqn:Ev, (is_leeg inst r) eqn:El; try reflexivity.
    exfalso. apply (Hpq r); assumption.
  - unfold tijd_vol_uren, tijd_leeg_uren, tijd_totaal_uren, aantal, kwartier_uur.
    pose proof (filter_gescheiden (is_vol inst) (is_leeg inst) res Hpq) as Hlen.
    apply Nat2Z.inj_le in Hlen. rewrite Nat2Z.inj_add in Hlen.
    rewrite Zle_Qle, inject_Z_plus in Hlen. lra.
Qed.

Lemma vol_en_leeg_gescheiden_witness :
  0.000002 < soc_max inst_scenario - soc_min inst_scenario /\
  tijd_vol_uren inst_scenario (resultaten (simuleer inst_scenario [kw_scenario]))
  + tijd_leeg_uren inst_scenario (resultaten (simuleer inst_scenario [kw_scenario]))
  <= tijd_totaal_uren (resultaten (simuleer inst_scenario [kw_scenario])).
Proof.
  assert (H : 0.000002 < soc_max inst_scenario - soc_min inst_scenario)
    by (vm_compute; reflexivity).
  split; [exact H |].
  exact (proj2 (vol_en_leeg_gescheiden inst_scenario
                  (resultaten (simuleer inst_scenario [kw_scenario])) H)).
Defined.

Lemma filter_alles {A : Type} (p : A -> bool) (l : list A) :
  Forall (fun a => p a = true) l -> filter p l = l.
Proof.
  induction 1 as [| a l Ha _ IH]; simpl.
  - reflexivity.
  - rewrite Ha, IH. reflexivity.
Qed.

Lemma procent_honderd (n : Q) :
  0 < n * kwartier_uur ->
  exists p, deel (100 * (n * kwartier_uur)) (n * kwartier_uur) = Some p /\ p == 100.
Proof.
  intros Hn. unfold kwartier_uur in *.
  eexists. split; [apply deel_gedefinieerd; lra |].
  field. lra.
Qed.

(** X17. With both SoC sliders on the same value (50, the only one the
    widgets allow for both), every row of a run within the widget ranges on
    non-negative buckets counts as full and as empty at once, and both
    percentages are 100. *)
Theorem vol_en_leeg_tegelijk (inst : Instellingen) (kwartieren : list Kwartier) :
  binnen_bereik inst ->
  soc_min_pct inst = soc_max_pct inst ->
  Forall niet_negatief kwartieren ->
  kwartieren <> [] ->
  let res := resultaten (simuleer inst kwartieren) in
  Forall (fun r => is_vol inst r = true /\ is_leeg inst r = true) res /\
  exists pv pl,
    pct_vol inst res = Some pv /\ pct_leeg inst res = Some pl /\
    pv == 100 /\ pl == 100.
Proof.
  intros Hinst Hpct Hkw Hne res.
  assert (Hsoc : soc_min inst == soc_max inst).
  { unfold soc_min, soc_max. rewrite Hpct. reflexivity. }
  apply binnen_bereik_bruikbaar in Hinst.
  destruct (simuleer_in_orde inst kwartieren Hinst Hkw) as [_ Hres].
  fold res in Hres.
  assert (Hall : Forall (fun r => is_vol inst r = true /\ is_leeg inst r = true) res).
  { eapply Forall_impl; [| exact Hres].
    intros r [[Hlo Hhi] _]. unfold is_vol, is_leeg.
    split; apply Qle_bool_iff; lra. }
  split; [exact Hall |].
  assert (Hres_ne : res <> []) by (apply resultaten_niet_leeg; exact Hne).
  pose proof (tijd_totaal_pos res Hres_ne) as Htot. unfold tijd_totaal_uren in Htot.
  destruct (procent_honderd _ Htot) as (p & Hp & Hp100).
  exists p, p.
  unfold pct_vol, pct_leeg, tijd_vol_uren, tijd_leeg_uren, tijd_totaal_uren, aantal.
  rewrite !filter_alles.
  - repeat split; assumption.
  - eapply Forall_impl; [| exact Hall]. intros r H. apply H.
  - eapply Forall_impl; [| exact Hall]. intros r H. apply H.
Qed.

Lemma vol_en_leeg_tegelijk_witness :
  binnen_bereik inst_half /\
  soc_min_pct inst_half = soc_max_pct inst_half /\
  Forall niet_negatief [kw_beide] /\
  [kw_beide] <> [] /\
  exists pv pl,
    pct_vol inst_half (resultaten (simuleer inst_half [kw_beide])) = Some pv /\
    pct_leeg inst_half (resultaten (simuleer inst_half [kw_beide])) = Some pl /\
    pv == 100 /\ pl == 100.
Proof.
  assert (H1 : soc_min_pct inst_half = soc_max_pct inst_half) by reflexivity.
  assert (H2 : [kw_beide] <> []) by discriminate.
  split; [exact half_binnen_bereik |].
  split; [exact H1 |].
  split; [exact scenario_beide_niet_negatief |].
  split; [exact H2 |].
  exact (proj2 (vol_en_leeg_tegelijk inst_half [kw_beide] half_binnen_bereik H1
                  scenario_beide_niet_negatief H2)).
Defined.

(** ** The buckets of an upload *)

Lemma tijd_vergelijk_Lt (a b : Tijd) :
  tijd_vergelijk a b = Lt <->
  (jaar a < jaar b \/ jaar a = jaar b /\
   (maand a < maand b \/ maand a = maand b /\
    (dag a < dag b \/ dag a = dag b /\
     (uur a < uur b \/ uur a = uur b /\
      (minuut a < minuut b \/ minuut a = minuut b /\
       (seconde a < seconde b \/ seconde a = seconde b /\
        nanoseconde a < nanoseconde b))))))%Z.
Proof.
  tijd_gevallen; split; intros Hyp; try discriminate; try reflexivity; lia.
Qed.

Lemma tijd_vergelijk_Gt (a b : Tijd) :
  tijd_vergelijk a b = Gt -> tijd_vergelijk b a = Lt.
Proof.
  intros Hgt. apply tijd_vergelijk_Lt. revert Hgt.
  tijd_gevallen; intros Hgt; try discriminate; lia.
Qed.

Lemma tijd_lt_trans (a b c : Tijd) : tijd_lt a b -> tijd_lt b c -> tijd_lt a c.
Proof.
  unfold tijd_lt. rewrite !tijd_vergelijk_Lt. lia.
Qed.

Lemma tijd_lt_irrefl (a : Tijd) : ~ tijd_lt a a.
Proof.
  unfold tijd_lt. rewrite tijd_vergelijk_Lt. lia.
Qed.

Section GroepenGesorteerd.
Context {V : Type}.
Variable plus : V -> V -> V.

Lemma tel_bij_tijd_in (k x : Tijd) (v : V) (g : list (Tijd * V)) :
  In x (map fst (tel_bij tijd_vergelijk plus k v g)) -> x = k \/ In x (map fst g).
Proof.
  induction g as [| [k' v'] g IH]; simpl.
  - intros [H | []]. left. symmetry. exact H.
  - destruct (tijd_vergelijk k k'); simpl.
    + intros H. right. exact H.
    + intros [H | H]; [left; symmetry; exact H | right; exact H].
    + intros [H | H]; [right; left; exact H |].
      destruct (IH H) as [E | E]; [left; exact E | right; right; exact E].
Qed.

Lemma tel_bij_tijd_gesorteerd (k : Tijd) (v : V) (g : list (Tijd * V)) :
  StronglySorted tijd_lt (map fst g) ->
  StronglySorted tijd_lt (map fst (tel_bij tijd_vergelijk plus k v g)).
Proof.
  induction g as [| [k' v'] g IH]; intros Hs; simpl.
  - repeat constructor.
  - simpl in Hs. inversion Hs as [| ? ? Hs' Hall]; subst.
    destruct (tijd_vergelijk k k') eqn:E; simpl.
    + exact Hs.
    + constructor; [exact Hs |].
      constructor; [exact E |].
      eapply Forall_impl; [| exact Hall].
      intros x Hx. apply tijd_lt_trans with k'; assumption.
    + constructor; [apply IH; exact Hs' |].
      rewrite Forall_forall. intros x Hx.
      destruct (tel_bij_tijd_in _ _ _ _ Hx) as [E' | Hin].
      * subst. apply tijd_vergelijk_Gt. exact E.
      * rewrite Forall_forall in Hall. apply Hall. exact Hin.
Qed.

Lemma groupby_sum_tijd_gesorteerd (l : list (Tijd * V)) :
  StronglySorted tijd_lt (map fst (groupby_sum tijd_vergelijk plus l)).
Proof.
  unfold groupby_sum.
  assert (H : forall g, StronglySorted tijd_lt (map fst g) ->
            StronglySorted tijd_lt
              (map fst (fold_left
                          (fun g kv => tel_bij tijd_vergelijk plus (fst kv) (snd kv) g) l g))).
  { induction l as [| kv l IH]; intros g Hg; simpl.
    - exact Hg.
    - apply IH. apply tel_bij_tijd_gesorteerd. exact Hg. }
  apply H. constructor.
Qed.

End GroepenGesorteerd.

(** X18. The buckets that an upload gives are in strictly increasing order
    of timestamp; no timestamp occurs twice. *)
Theorem df_kwartier_gesorteerd (df : Bestand) :
  StronglySorted (fun a b => tijd_vergelijk a b = Lt) (map datetime (df_kwartier df)) /\
  NoDup (map datetime (df_kwartier df)).
Proof.
  assert (Hs : StronglySorted tijd_lt (map datetime (df_kwartier df))).
  { unfold df_kwartier. rewrite map_map. simpl.
    apply groupby_sum_tijd_gesorteerd. }
  split; [exact Hs |].
  induction Hs as [| t ts Hs IH Hall].
  - constructor.
  - constructor; [| exact IH].
    intros Hin. rewrite Forall_forall in Hall.
    apply (tijd_lt_irrefl t). apply Hall. exact Hin.
Qed.





(** ** The monthly table *)

Lemma voeg_label_bevat (k : Z) (ks : list Z) : In k (voeg_label k ks).
Proof.
  induction ks as [| k' ks IH]; simpl.
  - left. reflexivity.
  - destruct (Z.compare_spec k k') as [E | L | G].
    + left. symmetry. exact E.
    + left. reflexivity.
    + right. exact IH.
Qed.

Lemma voeg_label_behoudt (k x : Z) (ks : list Z) :
  In x ks -> In x (voeg_label k ks).
Proof.
  induction ks as [| k' ks IH]; simpl; [intros [] |].
  destruct (Z.compare k k'); simpl.
  - intros H. exact H.
  - intros H. right. exact H.
  - intros [H | H]; [left; exact H | right; apply IH; exact H].
Qed.

Lemma labels_in (l : list Z) (k : Z) : In k (labels l) <-> In k l.
Proof.
  unfold labels.
  assert (H : forall ks, In k (fold_left (fun acc k => voeg_label k acc) l ks)
                         <-> In k ks \/ In k l).
  { induction l as [| a l IH]; intros ks; simpl.
    - tauto.
    - rewrite IH. split.
      + intros [H | H]; [| right; right; exact H].
        destruct (voeg_label_in _ _ _ H) as [E | Hin];
          [right; left; symmetry; exact E | left; exact Hin].
      + intros [H | [H | H]].
        * left. apply voeg_label_behoudt. exact H.
        * left. subst. apply voeg_label_bevat.
        * right. exact H. }
  rewrite H. simpl. tauto.
Qed.

Lemma maand_winst_tabel (periode : Tijd -> Z) (inst : Instellingen)
    (kwartieren : list Kwartier) :
  exists h,
    maand_winst periode inst kwartieren (resultaten (simuleer inst kwartieren))
    = reeks_van (tabel (labels (map periode (map datetime kwartieren))) h).
Proof.
  destruct (simuleer_kolommen inst kwartieren) as (Htijd & _ & _).
  set (res := resultaten (simuleer inst kwartieren)) in *.
  set (ks := labels (map periode (map datetime kwartieren))).
  assert (Hks : StronglySorted Z.lt ks) by apply labels_gesorteerd.
  assert (Hres : labels (map (fun r => periode (tijd r)) res) = ks).
  { unfold ks. rewrite <- Htijd, map_map. reflexivity. }
  assert (Hkw : labels (map (fun kw => periode (datetime kw)) kwartieren) = ks).
  { unfold ks. rewrite map_map. reflexivity. }
  destruct (groupby_sum_tabel (fun r => periode (tijd r)) van_net_kWh res) as [G1 _].
  destruct (groupby_sum_tabel (fun r => periode (tijd r)) naar_net_kWh res) as [G2 _].
  destruct (groupby_sum_tabel (fun kw => periode (datetime kw)) afname kwartieren) as [G3 _].
  destruct (groupby_sum_tabel (fun kw => periode (datetime kw)) injectie kwartieren) as [G4 _].
  rewrite Hres in G1, G2. rewrite Hkw in G3, G4.
  unfold maand_winst, maand_zonder_van_net, maand_energie_van_net,
    maand_energie_naar_net, maand_zonder_naar_net.
  rewrite G1, G2, G3, G4.
  rewrite !reeks_op_tabel, !reeks_maal_tabel, reeks_op_tabel by exact Hks.
  eexists. reflexivity.
Qed.

(** X22. The monthly table of a run has its months in strictly increasing
    order and has a row for exactly the months in which a bucket lies. *)
Theorem maand_tabel (periode : Tijd -> Z) (inst : Instellingen)
    (kwartieren : list Kwartier) :
  let mw := maand_winst periode inst kwartieren (resultaten (simuleer inst kwartieren)) in
  StronglySorted Z.lt (map fst mw) /\
  (forall k, In k (map fst mw) <->
             exists kw, In kw kwartieren /\ periode (datetime kw) = k).
Proof.
  intros mw. destruct (maand_winst_tabel periode inst kwartieren) as [h Hh].
  fold mw in Hh. rewrite Hh.
  rewrite reeks_van_labels, tabel_labels.
  split; [apply labels_gesorteerd |].
  intros k. rewrite labels_in, map_map, in_map_iff. split.
  - intros (kw & E & Hin). exists kw. split; assumption.
  - intros (kw & Hin & E). exists kw. split; assumption.
Qed.
